(** * A shallow embedding of [main.py]: the physics question-answering backend

    The program is one FastAPI module: it reads three credentials from the
    environment, opens a ChromaDB collection, and serves [POST /api/query] by
    querying the collection ([query_chroma_collection]), and, when the
    combined context is not blank, asking the Perplexity completion API
    ([call_perplexity_api]).

    Python values are modelled as the code has them: [str] as a list of
    Unicode code points, [int] as [Z], the objects decoded from JSON as an
    inductive type.  The remote services, the environment and the
    version-dependent parts of pydantic are oracles collected in a [World]
    record.  Exceptions and the log of calls are threaded through a small
    error-and-writer monad. *)

From Stdlib Require Import List ZArith NArith Bool Lia String Ascii.
From Stdlib Require Import DecimalString.
Import ListNotations.

Set Warnings "-register-all".

Local Open Scope Z_scope.
Local Open Scope list_scope.

(** ** Python strings *)

(** A Python [str] is a sequence of code points. *)
Definition str := list N.

(** [py s] is the [str] written as the literal [s] in the source, for a
    literal of ASCII characters; the escape [\n] stands for a line feed, as
    in Python.  A line break inside the literal is a line feed as well (the
    triple-quoted prompt). *)
Fixpoint py (s : string) : str :=
  match s with
  | EmptyString => []
  | String "\" (String "n" rest) => 10%N :: py rest
  | String c rest => N_of_ascii c :: py rest
  end.

Definition str_eqb (a b : str) : bool :=
  if list_eq_dec N.eq_dec a b then true else false.

(** [str.isspace] on one code point: CPython's [_PyUnicode_IsWhitespace]. *)
Definition isspace (c : N) : bool :=
  ((9 <=? c) && (c <=? 13) || (28 <=? c) && (c <=? 32)
   || (c =? 133) || (c =? 160) || (c =? 5760)
   || (8192 <=? c) && (c <=? 8202)
   || (c =? 8232) || (c =? 8233) || (c =? 8239) || (c =? 8287)
   || (c =? 12288))%N.

Fixpoint lstrip (s : str) : str :=
  match s with
  | [] => []
  | c :: rest => if isspace c then lstrip rest else s
  end.

Definition rstrip (s : str) : str := rev (lstrip (rev s)).

(** [s.strip()] with no argument. *)
Definition strip (s : str) : str := rstrip (lstrip s).

(** Truth value of a [str]: the empty string is false. *)
Definition str_truthy (s : str) : bool :=
  match s with [] => false | _ :: _ => true end.

(** [sep.join(xs)] *)
Fixpoint join (sep : str) (xs : list str) : str :=
  match xs with
  | [] => []
  | x :: rest =>
      match rest with
      | [] => x
      | _ :: _ => x ++ sep ++ join sep rest
      end
  end.

(** [str(n)] for an [int]: decimal digits, with a minus sign when negative. *)
Definition str_of_int (n : Z) : str :=
  py (NilZero.string_of_int (Z.to_int n)).

(** [repr(k)] for a [str] without quotes, backslashes or control characters
    (the only keys the program subscripts with are such literals). *)
Definition repr_key (k : str) : str := py "'" ++ k ++ py "'".

(** [sub in s] *)
Definition Contains (s sub : str) : Prop :=
  exists pre post, s = pre ++ sub ++ post.

(** Every character is whitespace (the empty string included). *)
Definition blank (s : str) : bool := forallb isspace s.

(** ** Python objects of JSON shape *)

(** The objects [json.loads] produces and [json.dumps] consumes.  A [dict]
    keeps its items in insertion order; a float is kept as its [repr]. *)
Inductive value :=
| VNone
| VBool (b : bool)
| VInt (n : Z)
| VFloat (repr : str)
| VStr (s : str)
| VList (items : list value)
| VDict (items : list (str * value)).

(** [d.get(k)] on the items of a [dict] decoded from JSON: when a key is
    repeated in the text, the last occurrence is the one the [dict] holds. *)
Fixpoint dict_get (k : str) (items : list (str * value)) : option value :=
  match items with
  | [] => None
  | (k', v) :: rest =>
      match dict_get k rest with
      | Some v' => Some v'
      | None => if str_eqb k k' then Some v else None
      end
  end.

(** ** Exceptions *)

(** The classes of the exceptions that occur; every one derives from
    [Exception].  [LibraryError] stands for any other [Exception] subclass a
    library raises (a connection error of [requests], an error of the
    ChromaDB client, a JSON decoding error, a pydantic validation error). *)
Inductive exc_class :=
| Exception
| RuntimeError
| IndexError
| KeyError
| TypeError
| LibraryError (name : str).

Inductive exception :=
| PyExc (cls : exc_class) (descr : str)
| HTTPException (status_code : Z) (detail : str).

(** [str(e)], which is what [{e}] in an f-string renders. *)
Definition str_exc (e : exception) : str :=
  match e with
  | PyExc _ descr => descr
  | HTTPException status_code detail =>
      str_of_int status_code ++ py ": " ++ detail
  end.

Inductive result (A : Type) :=
| Return (a : A)
| Raise (e : exception).
Arguments Return {A} a.
Arguments Raise {A} e.

(** ** The log of calls *)

Inductive event :=
| Ev_CloudClient (api_key tenant database : str)
| Ev_get_collection (name : str)
| Ev_query_chroma_collection (query : str) (n_results : Z)
| Ev_collection_query (query_texts : list str) (n_results : Z)
| Ev_call_perplexity_api (query context : str)
| Ev_requests_post (url : str) (headers : list (str * str)) (payload : value).

(** Invocations of the generation client in a log, in order. *)
Fixpoint generation_calls (t : list event) : list (str * str) :=
  match t with
  | [] => []
  | Ev_call_perplexity_api q c :: rest => (q, c) :: generation_calls rest
  | _ :: rest => generation_calls rest
  end.

(** Invocations of the retrieval client in a log, in order. *)
Fixpoint retrieval_calls (t : list event) : list (str * Z) :=
  match t with
  | [] => []
  | Ev_query_chroma_collection q n :: rest => (q, n) :: retrieval_calls rest
  | _ :: rest => retrieval_calls rest
  end.

Definition is_post (ev : event) : bool :=
  match ev with Ev_requests_post _ _ _ => true | _ => false end.

Definition is_get_collection (ev : event) : bool :=
  match ev with Ev_get_collection _ => true | _ => false end.

(** ** The monad: an outcome and the calls made on the way *)

Definition M (A : Type) : Type := (result A * list event)%type.

Definition ret {A} (a : A) : M A := (Return a, []).
Definition raise {A} (e : exception) : M A := (Raise e, []).
Definition lift {A} (r : result A) : M A := (r, []).
Definition emit (ev : event) : M unit := (Return tt, [ev]).

Definition bind {A B} (m : M A) (k : A -> M B) : M B :=
  match m with
  | (Return a, t) => let '(r, t') := k a in (r, t ++ t')
  | (Raise e, t) => (Raise e, t)
  end.

(** [try: body / except Exception as e: handler e] *)
Definition try_except {A} (body : M A) (handler : exception -> M A) : M A :=
  match body with
  | (Return a, t) => (Return a, t)
  | (Raise e, t) => let '(r, t') := handler e in (r, t ++ t')
  end.

Notation "x <- m ;; k" := (bind m (fun x => k))
  (at level 61, m at next level, right associativity).
Notation "m ;;; k" := (bind m (fun _ => k))
  (at level 61, right associativity).

Definition outcome {A} (m : M A) : result A := fst m.
Definition calls {A} (m : M A) : list event := snd m.

(** ** The world outside the module *)

(** What [results.get("documents", ...)] finds in a query result. *)
Inductive documents_entry :=
| NoKey
| NoneValue
| Documents (per_query : list (list str)).

Record Collection := {
  Collection_query : list str -> Z -> result documents_entry
}.

Record Client := {
  Client_get_collection : str -> result Collection
}.

(** A [requests.Response]: [json] is the outcome of [response.json()]. *)
Record Response := {
  status_code : Z;
  text : str;
  json : result value
}.

(** The parts of pydantic's validation that depend on its version: what a
    [str] field does with a value that is not a [str], an [int] field with a
    value that is not an [int], and the errors for an absent required field
    and for a body that is not an object.  [errors_of body e] is the list
    [e.errors()] of the validation error [e] of the request body [body], as
    FastAPI encodes it for the 422 response; from version 2 on its entries
    echo the offending input. *)
Record Pydantic := {
  coerce_str : value -> result str;
  coerce_int : value -> result Z;
  missing_field : str -> exception;
  not_a_mapping : value -> exception;
  errors_of : value -> exception -> value
}.

Record World := {
  os_getenv : str -> option str;
  chromadb_CloudClient : str -> str -> str -> result Client;
  requests_post : str -> list (str * str) -> value -> result Response;
  pydantic : Pydantic
}.

(** ** Module initialisation *)

Definition CHROMA_DB : str := py "Kinematics".
Definition CHROMA_COLLECTION : str := py "Kinematics".

(** The module's globals once it has been imported. *)
Record Globals := {
  PERPLEXITY_API_KEY : str;
  CHROMA_API_KEY : str;
  CHROMA_TENANT : str;
  knowledge_collection : Collection
}.

(** The value of [os.getenv] when it is true ([not x] is false): neither
    [None] nor the empty string. *)
Definition truthy_value (x : option str) : option str :=
  match x with
  | Some (c :: s) => Some (c :: s)
  | Some [] | None => None
  end.

Definition missing_keys_message : str :=
  [10060%N] ++
  py " One or more required API keys/tenant missing in environment variables.".

Definition collection_failure_message (e : exception) : str :=
  [10060%N] ++ py " Failed to access ChromaDB collection '"
  ++ CHROMA_COLLECTION ++ py "': " ++ str_exc e.

(** The top-level statements of the module, from [load_dotenv()] on;
    [os_getenv] is the environment after [load_dotenv()]. *)
Definition module_init (w : World) : M Globals :=
  match truthy_value (os_getenv w (py "PERPLEXITY_API_KEY")),
        truthy_value (os_getenv w (py "CHROMA_CLOUD_API_KEY")),
        truthy_value (os_getenv w (py "CHROMA_CLOUD_TENANT")) with
  | Some perplexity_api_key, Some chroma_api_key, Some chroma_tenant =>
      client <- (emit (Ev_CloudClient chroma_api_key chroma_tenant CHROMA_DB) ;;;
                 lift (chromadb_CloudClient w chroma_api_key chroma_tenant
                         CHROMA_DB)) ;;
      collection <-
        try_except
          (emit (Ev_get_collection CHROMA_COLLECTION) ;;;
           lift (Client_get_collection client CHROMA_COLLECTION))
          (fun e => raise (PyExc RuntimeError (collection_failure_message e))) ;;
      ret {| PERPLEXITY_API_KEY := perplexity_api_key;
             CHROMA_API_KEY := chroma_api_key;
             CHROMA_TENANT := chroma_tenant;
             knowledge_collection := collection |}
  | _, _, _ => raise (PyExc RuntimeError missing_keys_message)
  end.

(** ** The request and response models *)

Record QueryRequest := {
  query : str;
  n_results : Z
}.

Record QueryResponse := {
  thinking : str;
  answer : str
}.

Definition validate_str (pd : Pydantic) (v : value) : result str :=
  match v with
  | VStr s => Return s
  | _ => coerce_str pd v
  end.

Definition validate_int (pd : Pydantic) (v : value) : result Z :=
  match v with
  | VInt n => Return n
  | _ => coerce_int pd v
  end.

(** Validation of a request body against [QueryRequest]: [query] is
    required, [n_results] has the default 3, other keys are ignored. *)
Definition QueryRequest_validate (pd : Pydantic) (body : value)
  : result QueryRequest :=
  match body with
  | VDict items =>
      match dict_get (py "query") items with
      | None => Raise (missing_field pd (py "query"))
      | Some qv =>
          match validate_str pd qv with
          | Raise e => Raise e
          | Return q =>
              match dict_get (py "n_results") items with
              | None => Return {| query := q; n_results := 3 |}
              | Some nv =>
                  match validate_int pd nv with
                  | Raise e => Raise e
                  | Return n => Return {| query := q; n_results := n |}
                  end
              end
          end
      end
  | _ => Raise (not_a_mapping pd body)
  end.

(** [QueryResponse(thinking=..., answer=...)]: both fields are validated. *)
Definition QueryResponse_new (pd : Pydantic) (thinking_v answer_v : value)
  : result QueryResponse :=
  match validate_str pd thinking_v with
  | Raise e => Raise e
  | Return t =>
      match validate_str pd answer_v with
      | Raise e => Raise e
      | Return a => Return {| thinking := t; answer := a |}
      end
  end.

(** ** Subscripts *)

Definition list_getitem_0 {A} (l : list A) : result A :=
  match l with
  | x :: _ => Return x
  | [] => Raise (PyExc IndexError (py "list index out of range"))
  end.

Definition not_subscriptable (type_name : string) : exception :=
  PyExc TypeError (py "'" ++ py type_name ++ py "' object is not subscriptable").

(** [v[k]] for a [str] key [k]. *)
Definition getitem_key (v : value) (k : str) : result value :=
  match v with
  | VDict items =>
      match dict_get k items with
      | Some x => Return x
      | None => Raise (PyExc KeyError (repr_key k))
      end
  | VList _ =>
      Raise (PyExc TypeError
               (py "list indices must be integers or slices, not str"))
  | VStr _ =>
      Raise (PyExc TypeError (py "string indices must be integers, not 'str'"))
  | VNone => Raise (not_subscriptable "NoneType")
  | VBool _ => Raise (not_subscriptable "bool")
  | VInt _ => Raise (not_subscriptable "int")
  | VFloat _ => Raise (not_subscriptable "float")
  end.

(** [v[0]]; the keys of a decoded [dict] are all [str], so 0 is not one. *)
Definition getitem_0 (v : value) : result value :=
  match v with
  | VList items => list_getitem_0 items
  | VDict _ => Raise (PyExc KeyError (py "0"))
  | VStr (c :: _) => Return (VStr [c])
  | VStr [] => Raise (PyExc IndexError (py "string index out of range"))
  | VNone => Raise (not_subscriptable "NoneType")
  | VBool _ => Raise (not_subscriptable "bool")
  | VInt _ => Raise (not_subscriptable "int")
  | VFloat _ => Raise (not_subscriptable "float")
  end.

(** ** The retrieval client *)

Definition separator : str := py "\n\n---\n\n".

(** [results.get("documents", [[]])[0]] *)
Definition first_documents (results : documents_entry) : result (list str) :=
  match results with
  | NoKey => list_getitem_0 [[]]
  | NoneValue => Raise (not_subscriptable "NoneType")
  | Documents per_query => list_getitem_0 per_query
  end.

Definition query_chroma_collection (g : Globals) (query : str) (n_results : Z)
  : M str :=
  emit (Ev_query_chroma_collection query n_results) ;;;
  results <- (emit (Ev_collection_query [query] n_results) ;;;
              lift (Collection_query (knowledge_collection g)
                      [query] n_results)) ;;
  docs <- lift (first_documents results) ;;
  let combined_context :=
    match docs with
    | _ :: _ => join separator docs
    | [] => py ""
    end in
  ret combined_context.

(** ** The generation client *)

Definition prompt_before_context : str :=
  py "\n"
  ++ py "You are an expert IIT JEE Physics tutor that answers questions with detailed explanations. Using the following context, answer the user's question.\n"
  ++ py "\n"
  ++ py "Context:<br><br>\n".

Definition prompt_before_query : str :=
  py "<br><br>\n"
  ++ py "\n"
  ++ py "User Question:<br><br>\n".

Definition prompt_after_query : str :=
  py "<br><br>\n"
  ++ py "\n"
  ++ py "Provide a clear, structured, and detailed step-by-step explanation in your answer using HTML tags such as:<br>\n"
  ++ py "<ul>\n"
  ++ py "  <li><b>&lt;p&gt;</b> for paragraphs</li>\n"
  ++ py "  <li><b>&lt;b&gt;</b> or <b>&lt;strong&gt;</b> for bold text</li>\n"
  ++ py "  <li><b>&lt;i&gt;</b> or <b>&lt;em&gt;</b> for emphasis</li>\n"
  ++ py "  <li><b>&lt;ul&gt;</b> and <b>&lt;li&gt;</b> for lists</li>\n"
  ++ py "  <li><b>&lt;h3&gt;</b>, <b>&lt;h4&gt;</b> for headings</li>\n"
  ++ py "</ul>\n"
  ++ py "Do NOT use markdown syntax like **bold** or --- lines.<br><br>\n"
  ++ py "\n"
  ++ py "Please provide the entire answer in valid HTML.\n".


Definition prompt_of (query context : str) : str :=
  prompt_before_context ++ context ++ prompt_before_query ++ query
  ++ prompt_after_query.

Definition perplexity_url : str := py "https://api.perplexity.ai/chat/completions".

Definition perplexity_headers (g : Globals) : list (str * str) :=
  [ (py "Authorization", py "Bearer " ++ PERPLEXITY_API_KEY g);
    (py "Content-Type", py "application/json") ].

Definition perplexity_payload (prompt : str) : value :=
  VDict
    [ (py "model", VStr (py "sonar"));
      (py "messages",
        VList
          [ VDict [ (py "role", VStr (py "system"));
                    (py "content",
                      VStr (py "You are precise, concise and educational.")) ];
            VDict [ (py "role", VStr (py "user"));
                    (py "content", VStr prompt) ] ]);
      (py "temperature", VFloat (py "0.3"));
      (py "max_tokens", VInt 1024);
      (py "stream", VBool false) ].

Definition perplexity_error (response : Response) : exception :=
  PyExc Exception
    (py "Perplexity API error: " ++ str_of_int (status_code response)
     ++ py " " ++ text response).

(** The annotation [-> str] is not enforced: what is returned is whatever
    object sits at [data["choices"][0]["message"]["content"]]. *)
Definition call_perplexity_api (w : World) (g : Globals) (query context : str)
  : M value :=
  emit (Ev_call_perplexity_api query context) ;;;
  let url := perplexity_url in
  let headers := perplexity_headers g in
  let prompt := prompt_of query context in
  let payload := perplexity_payload prompt in
  response <- (emit (Ev_requests_post url headers payload) ;;;
               lift (requests_post w url headers payload)) ;;
  if status_code response =? 200 then
    data <- lift (json response) ;;
    choices <- lift (getitem_key data (py "choices")) ;;
    choice <- lift (getitem_0 choices) ;;
    message <- lift (getitem_key choice (py "message")) ;;
    lift (getitem_key message (py "content"))
  else
    raise (perplexity_error response).

(** ** The request handler *)

Definition no_information_answer : str :=
  py "Sorry, no relevant information found in the knowledge base for your query.".

Definition internal_error (e : exception) : exception :=
  HTTPException 500 (py "Internal server error: " ++ str_exc e).

Definition query_jee (w : World) (g : Globals) (request : QueryRequest)
  : M QueryResponse :=
  try_except
    (context <- query_chroma_collection g (query request) (n_results request) ;;
     if negb (str_truthy (strip context)) then
       lift (QueryResponse_new (pydantic w)
               (VStr (py "")) (VStr no_information_answer))
     else
       response_text <- call_perplexity_api w g (query request) context ;;
       lift (QueryResponse_new (pydantic w) (VStr (py "")) response_text))
    (fun e => raise (internal_error e)).

(** ** The framework around the handler *)

Inductive http_body :=
| JSONBody (v : value)
| TextBody (s : str).

Record http_response := {
  status : Z;
  body : http_body
}.

Definition response_model (r : QueryResponse) : value :=
  VDict [ (py "thinking", VStr (thinking r)); (py "answer", VStr (answer r)) ].

(** A surrogate code point: UTF-8 has no encoding for it. *)
Definition is_surrogate (c : N) : bool := ((55296 <=? c) && (c <=? 57343))%N.

(** [s.encode("utf-8")] succeeds. *)
Definition encodable (s : str) : bool :=
  forallb (fun c => negb (is_surrogate c)) s.

(** The [repr] of a float that is a number: neither NaN nor an infinity. *)
Definition finite_repr (r : str) : bool :=
  negb (str_eqb r (py "nan") || str_eqb r (py "inf") || str_eqb r (py "-inf")).

(** What [JSONResponse] can render: [json.dumps(content, ensure_ascii=False,
    allow_nan=False)] refuses a float that is not finite, and the encoding
    of its result to UTF-8 refuses a string with a surrogate code point. *)
Fixpoint renderable (v : value) : bool :=
  match v with
  | VNone | VBool _ | VInt _ => true
  | VFloat r => finite_repr r
  | VStr s => encodable s
  | VList items => forallb renderable items
  | VDict items =>
      forallb (fun item => match item with
                           | (k, x) => encodable k && renderable x
                           end) items
  end.

(** The plain response of the server-error middleware, sent when an
    exception reaches it. *)
Definition server_error_response : http_response :=
  {| status := 500; body := TextBody (py "Internal Server Error") |}.

(** [JSONResponse(content, status_code=code)]: building it renders the
    content; when that raises, the exception reaches the server-error
    middleware. *)
Definition json_response (code : Z) (content : value) : http_response :=
  if renderable content then {| status := code; body := JSONBody content |}
  else server_error_response.

(** What FastAPI does with an exception that leaves a path operation: an
    [HTTPException] becomes a JSON response with its status and its detail,
    any other exception the plain 500 response. *)
Definition exception_response (e : exception) : http_response :=
  match e with
  | HTTPException code detail =>
      json_response code (VDict [ (py "detail", VStr detail) ])
  | PyExc _ _ => server_error_response
  end.

(** [POST /api/query] as FastAPI dispatches it: the body is validated against
    [QueryRequest] first, and a failure is answered with status 422 and the
    list of errors; then [query_jee] runs and its result is serialised
    through the response model with status 200. *)
Definition post_api_query (w : World) (g : Globals) (payload : value)
  : M http_response :=
  match QueryRequest_validate (pydantic w) payload with
  | Raise e =>
      ret (json_response 422
             (VDict [ (py "detail", errors_of (pydantic w) payload e) ]))
  | Return request =>
      try_except
        (r <- query_jee w g request ;;
         ret (json_response 200 (response_model r)))
        (fun e => ret (exception_response e))
  end.

(** The server: one response per request, in order. *)
Fixpoint serve (w : World) (g : Globals) (payloads : list value)
  : M (list http_response) :=
  match payloads with
  | [] => ret []
  | payload :: rest =>
      r <- post_api_query w g payload ;;
      rs <- serve w g rest ;;
      ret (r :: rs)
  end.

(** The process: the module is imported, then requests are served; an
    exception during the import ends the process. *)
Definition process (w : World) (payloads : list value)
  : M (list http_response) :=
  g <- module_init w ;;
  serve w g payloads.

(** ** Concrete worlds *)

(** A pydantic that coerces nothing. *)
Definition sample_pydantic : Pydantic := {|
  coerce_str := fun _ =>
    Raise (PyExc (LibraryError (py "ValidationError")) (py "Input should be a valid string"));
  coerce_int := fun _ =>
    Raise (PyExc (LibraryError (py "ValidationError")) (py "Input should be a valid integer"));
  missing_field := fun k =>
    PyExc (LibraryError (py "ValidationError")) (k ++ py ": Field required");
  not_a_mapping := fun _ =>
    PyExc (LibraryError (py "ValidationError")) (py "Input should be a valid dictionary");
  errors_of := fun body e =>
    VList [ VDict [ (py "msg", VStr (str_exc e)); (py "input", body) ] ]
|}.

(** A collection whose every query has the outcome [found]. *)
Definition sample_collection (found : result documents_entry) : Collection :=
  {| Collection_query := fun _ _ => found |}.

Definition sample_globals (found : result documents_entry) : Globals := {|
  PERPLEXITY_API_KEY := py "pplx-key";
  CHROMA_API_KEY := py "chroma-key";
  CHROMA_TENANT := py "tenant-1";
  knowledge_collection := sample_collection found
|}.

Definition sample_environ (k : str) : option str :=
  if str_eqb k (py "PERPLEXITY_API_KEY") then Some (py "pplx-key")
  else if str_eqb k (py "CHROMA_CLOUD_API_KEY") then Some (py "chroma-key")
  else if str_eqb k (py "CHROMA_CLOUD_TENANT") then Some (py "tenant-1")
  else None.

(** A world with the three credentials set, a collection that opens and
    answers [found], and a completion endpoint that answers [reply]. *)
Definition sample_world (found : result documents_entry) (reply : result Response)
  : World := {|
  os_getenv := sample_environ;
  chromadb_CloudClient := fun _ _ _ =>
    Return {| Client_get_collection := fun _ => Return (sample_collection found) |};
  requests_post := fun _ _ _ => reply;
  pydantic := sample_pydantic
|}.

Definition sample_completion (content : str) : value :=
  VDict [ (py "choices",
            VList [ VDict [ (py "message",
                              VDict [ (py "role", VStr (py "assistant"));
                                      (py "content", VStr content) ]) ] ]) ].

Definition sample_reply_ok : result Response :=
  Return {| status_code := 200;
            text := py "{...}";
            json := Return (sample_completion (py "<p>Parabolic path.</p>")) |}.

Definition sample_reply_503 : result Response :=
  Return {| status_code := 503;
            text := py "upstream unavailable";
            json := Raise (PyExc (LibraryError (py "JSONDecodeError"))
                             (py "Expecting value: line 1 column 1 (char 0)")) |}.

Definition sample_request : QueryRequest :=
  {| query := py "What is projectile motion?"; n_results := 3 |}.

Definition sample_payload : value :=
  VDict [ (py "query", VStr (py "What is projectile motion?")) ].

(** The outcome of a collection query whose result count is refused. *)
Definition sample_count_refused : result documents_entry :=
  Raise (PyExc (LibraryError (py "ValueError"))
           (py "Number of requested results 0, cannot be negative, or zero. in query.")).

(** An answer of the completion endpoint with status 503 whose text is one
    lone surrogate (U+D800), as a body decoded with the charset utf-7 or
    unicode_escape can be. *)
Definition sample_reply_surrogate : result Response :=
  Return {| status_code := 503;
            text := [55296%N];
            json := Raise (PyExc (LibraryError (py "JSONDecodeError"))
                             (py "Expecting value: line 1 column 1 (char 0)")) |}.

Definition sample_payload_zero : value :=
  VDict [ (py "query", VStr (py "What is projectile motion?"));
          (py "n_results", VInt 0) ].

(** A world without the completion-API key. *)
Definition sample_world_no_key : World := {|
  os_getenv := fun k =>
    if str_eqb k (py "PERPLEXITY_API_KEY") then None else sample_environ k;
  chromadb_CloudClient := fun _ _ _ =>
    Return {| Client_get_collection := fun _ =>
                Return (sample_collection (Return (Documents [[]]))) |};
  requests_post := fun _ _ _ => sample_reply_ok;
  pydantic := sample_pydantic
|}.

(** A world whose collection does not exist. *)
Definition sample_client_no_collection : Client :=
  {| Client_get_collection := fun name =>
       Raise (PyExc (LibraryError (py "NotFoundError"))
                (py "Collection [" ++ name ++ py "] does not exist")) |}.

Definition sample_world_no_collection : World := {|
  os_getenv := sample_environ;
  chromadb_CloudClient := fun _ _ _ => Return sample_client_no_collection;
  requests_post := fun _ _ _ => sample_reply_ok;
  pydantic := sample_pydantic
|}.

(** ** The runs of the clients and of the handler, in closed form *)

Definition retrieval_log (query : str) (n_results : Z) : list event :=
  [ Ev_query_chroma_collection query n_results;
    Ev_collection_query [query] n_results ].

Definition retrieval_outcome (g : Globals) (query : str) (n_results : Z)
  : result str :=
  match Collection_query (knowledge_collection g) [query] n_results with
  | Raise e => Raise e
  | Return results =>
      match first_documents results with
      | Raise e => Raise e
      | Return docs => Return (join separator docs)
      end
  end.

Definition generation_log (g : Globals) (query context : str) : list event :=
  [ Ev_call_perplexity_api query context;
    Ev_requests_post perplexity_url (perplexity_headers g)
      (perplexity_payload (prompt_of query context)) ].

(** The handler, case by case. *)
Definition handler_outcome (w : World) (g : Globals) (request : QueryRequest)
  : result QueryResponse :=
  match retrieval_outcome g (query request) (n_results request) with
  | Raise e => Raise (internal_error e)
  | Return context =>
      if blank context then
        Return {| thinking := py ""; answer := no_information_answer |}
      else
        match outcome (call_perplexity_api w g (query request) context) with
        | Raise e => Raise (internal_error e)
        | Return response_text =>
            match QueryResponse_new (pydantic w) (VStr (py "")) response_text with
            | Raise e => Raise (internal_error e)
            | Return r => Return r
            end
        end
  end.

Definition handler_log (g : Globals) (request : QueryRequest) : list event :=
  retrieval_log (query request) (n_results request)
  ++ match retrieval_outcome g (query request) (n_results request) with
     | Raise _ => []
     | Return context =>
         if blank context then []
         else generation_log g (query request) context
     end.

(** ** More concrete worlds *)

(** The calls made while the module is imported. *)
Definition is_startup (ev : event) : bool :=
  match ev with
  | Ev_CloudClient _ _ _ | Ev_get_collection _ => true
  | _ => false
  end.

(** A world in which the completion-API key is set to the empty string. *)
Definition sample_world_empty_key : World := {|
  os_getenv := fun k =>
    if str_eqb k (py "PERPLEXITY_API_KEY") then Some (py "") else sample_environ k;
  chromadb_CloudClient := fun _ _ _ =>
    Return {| Client_get_collection := fun _ =>
                Return (sample_collection (Return (Documents [[]]))) |};
  requests_post := fun _ _ _ => sample_reply_ok;
  pydantic := sample_pydantic
|}.

(** An answer of the completion endpoint with status 200 and body [data]. *)
Definition sample_reply_200 (data : value) : result Response :=
  Return {| status_code := 200; text := py "{...}"; json := Return data |}.

Definition sample_two_choices : value :=
  VDict [ (py "id", VStr (py "cmpl-1"));
          (py "choices",
            VList [ VDict [ (py "index", VInt 0);
                            (py "message",
                              VDict [ (py "role", VStr (py "assistant"));
                                      (py "content", VStr (py "<p>First.</p>")) ]) ];
                    VDict [ (py "index", VInt 1);
                            (py "message",
                              VDict [ (py "role", VStr (py "assistant"));
                                      (py "content", VStr (py "<p>Second.</p>")) ]) ] ]) ].

(** * Properties *)

(** ** Strings *)

Lemma py_newline : py "\n" = [10%N].
Proof. reflexivity. Qed.

Lemma forallb_rev {A} (f : A -> bool) (l : list A) :
  forallb f (rev l) = forallb f l.
Proof.
  induction l as [|a l IH]; simpl; [reflexivity|].
  rewrite forallb_app, IH. simpl. rewrite andb_true_r. apply andb_comm.
Qed.

Lemma lstrip_nil_iff (s : str) : lstrip s = [] <-> blank s = true.
Proof.
  unfold blank. induction s as [|c s IH]; simpl.
  - tauto.
  - destruct (isspace c); simpl; [exact IH|].
    split; discriminate.
Qed.

Lemma lstrip_head (s : str) (c : N) (r : str) :
  lstrip s = c :: r -> isspace c = false.
Proof.
  induction s as [|a s IH]; simpl; [discriminate|].
  destruct (isspace a) eqn:E; [exact IH|].
  intros H. injection H as -> _. exact E.
Qed.

Lemma blank_lstrip (s : str) : blank (lstrip s) = true -> lstrip s = [].
Proof.
  destruct (lstrip s) as [|c r] eqn:E; [reflexivity|].
  apply lstrip_head in E. unfold blank. simpl. rewrite E. discriminate.
Qed.

(** [not s.strip()] holds exactly for the strings made of whitespace only. *)
Lemma strip_falsy_iff_blank (s : str) :
  negb (str_truthy (strip s)) = blank s.
Proof.
  destruct (blank s) eqn:B.
  - apply lstrip_nil_iff in B. unfold strip, rstrip. rewrite B. reflexivity.
  - destruct (strip s) as [|c r] eqn:E; [|reflexivity].
    exfalso. unfold strip, rstrip in E.
    apply (f_equal (@rev N)) in E. rewrite rev_involutive in E. simpl in E.
    apply lstrip_nil_iff in E. unfold blank in E. rewrite forallb_rev in E.
    apply blank_lstrip in E. apply lstrip_nil_iff in E. congruence.
Qed.

Lemma join_singleton (sep d : str) : join sep [d] = d.
Proof. reflexivity. Qed.

Lemma join_cons (sep d d' : str) (rest : list str) :
  join sep (d :: d' :: rest) = d ++ sep ++ join sep (d' :: rest).
Proof. reflexivity. Qed.

Lemma Contains_infix (pre sub post : str) : Contains (pre ++ sub ++ post) sub.
Proof. exists pre, post. reflexivity. Qed.

Lemma Contains_suffix (pre sub : str) : Contains (pre ++ sub) sub.
Proof. exists pre, []. rewrite app_nil_r. reflexivity. Qed.

Lemma Contains_app_r (pre s sub : str) : Contains s sub -> Contains (pre ++ s) sub.
Proof.
  intros (a & b & ->). exists (pre ++ a), b. rewrite <- app_assoc. reflexivity.
Qed.

(** ** The log *)

Lemma generation_calls_app (t t' : list event) :
  generation_calls (t ++ t') = generation_calls t ++ generation_calls t'.
Proof.
  induction t as [|ev t IH]; simpl; [reflexivity|].
  destruct ev; simpl; rewrite IH; reflexivity.
Qed.

Lemma retrieval_calls_app (t t' : list event) :
  retrieval_calls (t ++ t') = retrieval_calls t ++ retrieval_calls t'.
Proof.
  induction t as [|ev t IH]; simpl; [reflexivity|].
  destruct ev; simpl; rewrite IH; reflexivity.
Qed.

(** ** The two clients, run *)

Lemma query_chroma_collection_run g query n_results :
  query_chroma_collection g query n_results
  = (retrieval_outcome g query n_results, retrieval_log query n_results).
Proof.
  unfold query_chroma_collection, retrieval_outcome, retrieval_log.
  unfold bind, emit, lift, ret. simpl.
  destruct (Collection_query _ _ _) as [results|e]; simpl; [|reflexivity].
  destruct (first_documents results) as [docs|e]; simpl; [|reflexivity].
  destruct docs; reflexivity.
Qed.

Lemma call_perplexity_api_calls w g query context :
  calls (call_perplexity_api w g query context) = generation_log g query context.
Proof.
  unfold call_perplexity_api, generation_log, calls, bind, emit, lift, raise.
  simpl.
  destruct (requests_post _ _ _ _) as [response|e]; simpl; [|reflexivity].
  destruct (status_code response =? 200); simpl; [|reflexivity].
  destruct (json response) as [data|e]; simpl; [|reflexivity].
  destruct (getitem_key data _) as [choices|e]; simpl; [|reflexivity].
  destruct (getitem_0 choices) as [choice|e]; simpl; [|reflexivity].
  destruct (getitem_key choice _) as [message|e]; reflexivity.
Qed.

Lemma call_perplexity_api_run w g query context :
  call_perplexity_api w g query context
  = (outcome (call_perplexity_api w g query context),
     generation_log g query context).
Proof.
  rewrite <- (call_perplexity_api_calls w). unfold outcome, calls.
  destruct (call_perplexity_api w g query context); reflexivity.
Qed.

Lemma query_jee_run w g request :
  query_jee w g request = (handler_outcome w g request, handler_log g request).
Proof.
  unfold query_jee, handler_outcome, handler_log.
  rewrite query_chroma_collection_run.
  destruct (retrieval_outcome g (query request) (n_results request))
    as [context|e]; simpl; [|reflexivity].
  rewrite strip_falsy_iff_blank.
  destruct (blank context); simpl; [reflexivity|].
  rewrite (call_perplexity_api_run w).
  destruct (outcome (call_perplexity_api w g (query request) context))
    as [response_text|e]; simpl; [|rewrite ?app_nil_r; reflexivity].
  destruct (QueryResponse_new _ _ _) as [r|e]; simpl;
    rewrite ?app_nil_r; reflexivity.
Qed.

(** ** The retrieval client *)

(** C8: when the retrieval service returns no matching document for the
    query, [query_chroma_collection] returns the empty string. *)
Theorem C8_no_documents_empty_context
  (g : Globals) (query : str) (n_results : Z) (results : documents_entry) :
  Collection_query (knowledge_collection g) [query] n_results = Return results ->
  first_documents results = Return [] ->
  outcome (query_chroma_collection g query n_results) = Return (py "").
Proof.
  intros Hq Hd. rewrite query_chroma_collection_run. unfold outcome. simpl.
  unfold retrieval_outcome. rewrite Hq, Hd. reflexivity.
Qed.

Lemma C8_witness :
  Collection_query (knowledge_collection (sample_globals (Return (Documents [[]]))))
    [py "asdkjhasd"] 3 = Return (Documents [[]])
  /\ first_documents (Documents [[]]) = Return []
  /\ outcome (query_chroma_collection (sample_globals (Return (Documents [[]])))
                (py "asdkjhasd") 3) = Return (py "").
Proof.
  split; [reflexivity|]. split; [reflexivity|].
  apply (C8_no_documents_empty_context _ _ _ (Documents [[]])); reflexivity.
Defined.

(** C10: when the retrieval service returns exactly one document,
    [query_chroma_collection] returns that document's text unchanged: no
    separator is put before or after it. *)
Theorem C10_single_document_unchanged
  (g : Globals) (query : str) (n_results : Z) (results : documents_entry)
  (d : str) :
  Collection_query (knowledge_collection g) [query] n_results = Return results ->
  first_documents results = Return [d] ->
  outcome (query_chroma_collection g query n_results) = Return d.
Proof.
  intros Hq Hd. rewrite query_chroma_collection_run. unfold outcome. simpl.
  unfold retrieval_outcome. rewrite Hq, Hd. rewrite join_singleton. reflexivity.
Qed.

Lemma C10_witness :
  Collection_query
    (knowledge_collection (sample_globals (Return (Documents [[py "Doc A"]]))))
    [py "range of a projectile"] 3 = Return (Documents [[py "Doc A"]])
  /\ first_documents (Documents [[py "Doc A"]]) = Return [py "Doc A"]
  /\ outcome (query_chroma_collection
                (sample_globals (Return (Documents [[py "Doc A"]])))
                (py "range of a projectile") 3) = Return (py "Doc A").
Proof.
  split; [reflexivity|]. split; [reflexivity|].
  apply (C10_single_document_unchanged _ _ _ (Documents [[py "Doc A"]]));
    reflexivity.
Defined.

(** ** The handler behind the framework *)

Lemma json_response_status code content :
  status (json_response code content) = code
  \/ status (json_response code content) = 500.
Proof. unfold json_response. destruct (renderable content); simpl; auto. Qed.

Lemma json_response_status_inv code content :
  code <> 500 ->
  status (json_response code content) = code ->
  json_response code content = {| status := code; body := JSONBody content |}.
Proof.
  unfold json_response. destruct (renderable content); simpl; [reflexivity|].
  congruence.
Qed.

Lemma encodable_app (a b : str) :
  encodable (a ++ b) = encodable a && encodable b.
Proof. apply forallb_app. Qed.

Lemma renderable_detail (detail : str) :
  renderable (VDict [ (py "detail", VStr detail) ]) = encodable detail.
Proof. simpl. apply andb_true_r. Qed.

Lemma exception_response_internal_error (e : exception) :
  exception_response (internal_error e)
  = if encodable (str_exc e) then
      {| status := 500;
         body := JSONBody
           (VDict [ (py "detail",
                     VStr (py "Internal server error: " ++ str_exc e)) ]) |}
    else server_error_response.
Proof.
  unfold internal_error, exception_response, json_response.
  rewrite renderable_detail, encodable_app. reflexivity.
Qed.

Lemma encodable_digits (u : Decimal.uint) :
  encodable (py (NilEmpty.string_of_uint u)) = true.
Proof. induction u; simpl; auto. Qed.

Lemma encodable_str_of_int (n : Z) : encodable (str_of_int n) = true.
Proof.
  unfold str_of_int, NilZero.string_of_int, NilZero.string_of_uint.
  destruct (Z.to_int n) as [u|u].
  - destruct u; try reflexivity; apply encodable_digits.
  - assert (H : forall v, encodable (py (String "-" (NilEmpty.string_of_uint v)))
                          = true).
    { intros v. change (encodable (45%N :: py (NilEmpty.string_of_uint v)) = true).
      simpl. apply encodable_digits. }
    destruct u; try reflexivity; apply H.
Qed.

Lemma exception_response_internal_error_status (e : exception) :
  status (exception_response (internal_error e)) = 500.
Proof.
  rewrite exception_response_internal_error.
  destruct (encodable (str_exc e)); reflexivity.
Qed.

Lemma post_api_query_run w g payload request :
  QueryRequest_validate (pydantic w) payload = Return request ->
  post_api_query w g payload
  = (Return match handler_outcome w g request with
            | Return r => json_response 200 (response_model r)
            | Raise e => exception_response e
            end,
     handler_log g request).
Proof.
  intros Hv. unfold post_api_query. rewrite Hv, query_jee_run.
  unfold try_except, bind, ret.
  destruct (handler_outcome w g request); rewrite !app_nil_r; reflexivity.
Qed.

Lemma post_api_query_rejected w g payload e :
  QueryRequest_validate (pydantic w) payload = Raise e ->
  post_api_query w g payload
  = (Return (json_response 422
               (VDict [ (py "detail", errors_of (pydantic w) payload e) ])),
     []).
Proof.
  intros Hv. unfold post_api_query. rewrite Hv. reflexivity.
Qed.

Lemma post_api_query_total w g payload :
  exists response t, post_api_query w g payload = (Return response, t).
Proof.
  destruct (QueryRequest_validate (pydantic w) payload) as [request|e] eqn:Hv.
  - rewrite (post_api_query_run _ _ _ _ Hv). eauto.
  - rewrite (post_api_query_rejected _ _ _ _ Hv). eauto.
Qed.

Lemma serve_total w g payloads :
  exists responses,
    outcome (serve w g payloads) = Return responses
    /\ List.length responses = List.length payloads.
Proof.
  induction payloads as [|payload rest IH]; simpl.
  - exists []. split; reflexivity.
  - destruct (post_api_query_total w g payload) as (r & t & Hr).
    destruct IH as (rs & Hrs & Hlen).
    exists (r :: rs). rewrite Hr. unfold bind, ret, outcome in *.
    destruct (serve w g rest) as [o t']. simpl in Hrs. subst o. simpl.
    split; [reflexivity | now rewrite Hlen].
Qed.

Lemma handler_outcome_raise w g request e :
  handler_outcome w g request = Raise e ->
  exists cause, e = internal_error cause.
Proof.
  unfold handler_outcome.
  destruct (retrieval_outcome _ _ _) as [context|e0].
  - destruct (blank context); [discriminate|].
    destruct (outcome (call_perplexity_api _ _ _ _)) as [v|e1].
    + destruct (QueryResponse_new _ _ _) as [r|e2]; [discriminate|].
      intros [= <-]. eauto.
    + intros [= <-]. eauto.
  - intros [= <-]. eauto.
Qed.

Lemma QueryResponse_new_thinking pd s v r :
  QueryResponse_new pd (VStr s) v = Return r -> thinking r = s.
Proof.
  unfold QueryResponse_new. simpl.
  destruct (validate_str pd v); [|discriminate].
  intros [= <-]. reflexivity.
Qed.

Lemma handler_outcome_thinking w g request r :
  handler_outcome w g request = Return r -> thinking r = py "".
Proof.
  unfold handler_outcome.
  destruct (retrieval_outcome _ _ _) as [context|e0]; [|discriminate].
  destruct (blank context).
  - intros [= <-]. reflexivity.
  - destruct (outcome (call_perplexity_api _ _ _ _)) as [v|e1]; [|discriminate].
    destruct (QueryResponse_new _ _ _) as [r'|e2] eqn:E; [|discriminate].
    intros [= <-]. exact (QueryResponse_new_thinking _ _ _ _ E).
Qed.

Lemma retrieval_outcome_documents g query n_results results docs :
  Collection_query (knowledge_collection g) [query] n_results = Return results ->
  first_documents results = Return docs ->
  retrieval_outcome g query n_results = Return (join separator docs).
Proof.
  intros Hq Hd. unfold retrieval_outcome. rewrite Hq, Hd. reflexivity.
Qed.

Lemma retrieval_outcome_eq g query n_results :
  outcome (query_chroma_collection g query n_results)
  = retrieval_outcome g query n_results.
Proof. rewrite query_chroma_collection_run. reflexivity. Qed.

(** C1 (amended): when retrieval yields at least one document and the joined
    context is not whitespace only, the generation client is invoked exactly
    once, with the query of the request and with the documents' texts joined,
    in the order returned, by the separator; for the documents "Doc A" and
    "Doc B" that context is "Doc A", two line feeds, three dashes, two line
    feeds, "Doc B", with no space before "Doc B". *)
Theorem C1_generation_once_with_joined_context
  (w : World) (g : Globals) (request : QueryRequest)
  (results : documents_entry) (docs : list str) :
  Collection_query (knowledge_collection g) [query request] (n_results request)
    = Return results ->
  first_documents results = Return docs ->
  docs <> [] ->
  blank (join separator docs) = false ->
  generation_calls (calls (query_jee w g request))
    = [(query request, join separator docs)]
  /\ join separator [py "Doc A"; py "Doc B"] = py "Doc A\n\n---\n\nDoc B".
Proof.
  intros Hq Hd _ Hb. split; [|reflexivity].
  rewrite query_jee_run. unfold calls, handler_log. simpl snd.
  rewrite (retrieval_outcome_documents _ _ _ _ _ Hq Hd), Hb.
  reflexivity.
Qed.

Lemma C1_witness :
  let found := Documents [[py "Doc A"; py "Doc B"]] in
  let g := sample_globals (Return found) in
  let w := sample_world (Return found) sample_reply_ok in
  Collection_query (knowledge_collection g)
    [query sample_request] (n_results sample_request) = Return found
  /\ first_documents found = Return [py "Doc A"; py "Doc B"]
  /\ [py "Doc A"; py "Doc B"] <> []
  /\ blank (join separator [py "Doc A"; py "Doc B"]) = false
  /\ generation_calls (calls (query_jee w g sample_request))
     = [(py "What is projectile motion?", py "Doc A\n\n---\n\nDoc B")].
Proof.
  intros found g w.
  split; [reflexivity|]. split; [reflexivity|].
  split; [discriminate|]. split; [reflexivity|].
  apply (C1_generation_once_with_joined_context w g sample_request found
           [py "Doc A"; py "Doc B"]);
    [reflexivity | reflexivity | discriminate | reflexivity].
Defined.

(** C1 as stated fails twice.  For the documents "Doc A" and "Doc B" the
    context handed to the generation client has no space after the
    separator; and a retrieval that yields one document of whitespace only
    leads to no generation call at all. *)
Lemma C1_counterexample :
  let ab := Documents [[py "Doc A"; py "Doc B"]] in
  let sp := Documents [[py " "]] in
  generation_calls
    (calls (query_jee (sample_world (Return ab) sample_reply_ok)
              (sample_globals (Return ab)) sample_request))
    = [(py "What is projectile motion?", py "Doc A\n\n---\n\nDoc B")]
  /\ py "Doc A\n\n---\n\nDoc B" <> py "Doc A\n\n---\n\n Doc B"
  /\ first_documents sp = Return [py " "]
  /\ generation_calls
       (calls (query_jee (sample_world (Return sp) sample_reply_ok)
                 (sample_globals (Return sp)) sample_request))
     = [].
Proof.
  intros ab sp.
  split; [vm_compute; reflexivity|]. split; [discriminate|].
  split; vm_compute; reflexivity.
Qed.

(** C2: when the retrieval step returns an empty or whitespace-only context,
    the handler returns the response with an empty [thinking] and the fixed
    "no relevant information" answer, the HTTP status is 200, and neither the
    generation client nor the completion endpoint is called. *)
Theorem C2_blank_context_canned_answer
  (w : World) (g : Globals) (request : QueryRequest) (context : str) :
  outcome (query_chroma_collection g (query request) (n_results request))
    = Return context ->
  blank context = true ->
  outcome (query_jee w g request)
    = Return {| thinking := py "";
                answer := py "Sorry, no relevant information found in the knowledge base for your query." |}
  /\ generation_calls (calls (query_jee w g request)) = []
  /\ filter is_post (calls (query_jee w g request)) = []
  /\ forall payload,
       QueryRequest_validate (pydantic w) payload = Return request ->
       outcome (post_api_query w g payload)
         = Return {| status := 200;
                     body := JSONBody
                       (VDict [ (py "thinking", VStr (py ""));
                                (py "answer", VStr (py "Sorry, no relevant information found in the knowledge base for your query.")) ]) |}
       /\ generation_calls (calls (post_api_query w g payload)) = [].
Proof.
  intros Hc Hb. rewrite retrieval_outcome_eq in Hc.
  assert (Ho : handler_outcome w g request
               = Return {| thinking := py ""; answer := no_information_answer |}).
  { unfold handler_outcome. rewrite Hc, Hb. reflexivity. }
  assert (Hl : handler_log g request
               = retrieval_log (query request) (n_results request)).
  { unfold handler_log. rewrite Hc, Hb. apply app_nil_r. }
  rewrite query_jee_run. unfold outcome, calls. simpl fst. simpl snd.
  rewrite Hl. repeat split; try assumption; try reflexivity.
  - rewrite (post_api_query_run _ _ _ _ H), Ho. reflexivity.
  - rewrite (post_api_query_run _ _ _ _ H). simpl snd. rewrite Hl. reflexivity.
Qed.

Lemma C2_witness :
  let g := sample_globals (Return (Documents [[py " \n"]])) in
  let w := sample_world (Return (Documents [[py " \n"]])) sample_reply_ok in
  outcome (query_chroma_collection g (query sample_request)
             (n_results sample_request)) = Return (py " \n")
  /\ blank (py " \n") = true
  /\ outcome (query_jee w g sample_request)
     = Return {| thinking := py "";
                 answer := py "Sorry, no relevant information found in the knowledge base for your query." |}
  /\ outcome (post_api_query w g sample_payload)
     = Return {| status := 200;
                 body := JSONBody
                   (VDict [ (py "thinking", VStr (py ""));
                            (py "answer", VStr (py "Sorry, no relevant information found in the knowledge base for your query.")) ]) |}.
Proof.
  intros g w.
  split; [reflexivity|]. split; [reflexivity|].
  destruct (C2_blank_context_canned_answer w g sample_request (py " \n")
              eq_refl eq_refl) as (H1 & _ & _ & H4).
  split; [exact H1|]. exact (proj1 (H4 sample_payload eq_refl)).
Defined.

(** C9: every response with status 200 carries an empty [thinking] field,
    whether it is the fixed answer of the empty-context branch or the answer
    of the generation branch; so does every [QueryResponse] the handler
    returns. *)
Theorem C9_thinking_always_empty
  (w : World) (g : Globals) (payload : value) (response : http_response) :
  outcome (post_api_query w g payload) = Return response ->
  status response = 200 ->
  (exists request r,
     QueryRequest_validate (pydantic w) payload = Return request
     /\ outcome (query_jee w g request) = Return r
     /\ thinking r = py ""
     /\ body response
        = JSONBody (VDict [ (py "thinking", VStr (py ""));
                            (py "answer", VStr (answer r)) ]))
  /\ (forall request r,
        outcome (query_jee w g request) = Return r -> thinking r = py "").
Proof.
  intros Hr Hs. split.
  - destruct (QueryRequest_validate (pydantic w) payload) as [request|e] eqn:Hv.
    + rewrite (post_api_query_run _ _ _ _ Hv) in Hr. unfold outcome in Hr.
      simpl in Hr. injection Hr as Hr.
      destruct (handler_outcome w g request) as [r|e] eqn:Ho.
      * exists request, r. split; [reflexivity|].
        rewrite query_jee_run. split; [exact Ho|].
        pose proof (handler_outcome_thinking _ _ _ _ Ho) as Ht.
        split; [exact Ht|]. subst response.
        rewrite (json_response_status_inv 200 _ ltac:(lia) Hs).
        simpl. unfold response_model. rewrite Ht. reflexivity.
      * apply handler_outcome_raise in Ho. destruct Ho as (cause & ->).
        subst response. rewrite exception_response_internal_error_status in Hs.
        discriminate.
    + rewrite (post_api_query_rejected _ _ _ _ Hv) in Hr. unfold outcome in Hr.
      cbn [fst] in Hr. injection Hr as <-.
      match type of Hs with
      | status (json_response ?c ?v) = _ =>
          destruct (json_response_status c v) as [H | H];
          rewrite H in Hs; discriminate
      end.
  - intros request r. rewrite query_jee_run. apply handler_outcome_thinking.
Qed.

Lemma C9_witness :
  let found := Return (Documents [[py "Doc A"; py "Doc B"]]) in
  let w := sample_world found sample_reply_ok in
  let g := sample_globals found in
  let response :=
    {| status := 200;
       body := JSONBody
         (VDict [ (py "thinking", VStr (py ""));
                  (py "answer", VStr (py "<p>Parabolic path.</p>")) ]) |} in
  outcome (post_api_query w g sample_payload) = Return response
  /\ status response = 200
  /\ exists request r,
       QueryRequest_validate (pydantic w) sample_payload = Return request
       /\ outcome (query_jee w g request) = Return r
       /\ thinking r = py ""
       /\ body response
          = JSONBody (VDict [ (py "thinking", VStr (py ""));
                              (py "answer", VStr (answer r)) ]).
Proof.
  intros found w g response.
  split; [vm_compute; reflexivity|]. split; [reflexivity|].
  exact (proj1 (C9_thinking_always_empty w g sample_payload response
                  ltac:(vm_compute; reflexivity) eq_refl)).
Defined.

(** C3 (amended): an exception raised by the retrieval call, or by the
    generation call, is caught in the handler and becomes one
    [HTTPException] with status 500 whose detail contains the description of
    the exception; no other exception ever leaves the handler, every request
    gets a response, and the server goes on to answer the requests that
    follow.  The caller's response has status 500 in every case; it carries
    the detail when the description can be encoded to UTF-8, and is the
    framework's plain "Internal Server Error" when the description holds a
    surrogate code point. *)
Theorem C3_client_failures_become_500
  (w : World) (g : Globals) (request : QueryRequest) (e : exception) :
  (outcome (query_chroma_collection g (query request) (n_results request))
     = Raise e
   \/ exists context,
        outcome (query_chroma_collection g (query request) (n_results request))
          = Return context
        /\ blank context = false
        /\ outcome (call_perplexity_api w g (query request) context) = Raise e) ->
  let detail := py "Internal server error: " ++ str_exc e in
  outcome (query_jee w g request) = Raise (HTTPException 500 detail)
  /\ Contains detail (str_exc e)
  /\ (forall payload,
        QueryRequest_validate (pydantic w) payload = Return request ->
        outcome (post_api_query w g payload)
          = Return (if encodable (str_exc e) then
                      {| status := 500;
                         body := JSONBody (VDict [ (py "detail", VStr detail) ]) |}
                    else
                      {| status := 500;
                         body := TextBody (py "Internal Server Error") |}))
  /\ (forall request' e',
        outcome (query_jee w g request') = Raise e' ->
        exists detail', e' = HTTPException 500 detail')
  /\ (forall payloads,
        exists responses,
          outcome (serve w g payloads) = Return responses
          /\ List.length responses = List.length payloads).
Proof.
  intros H detail.
  assert (Ho : handler_outcome w g request = Raise (HTTPException 500 detail)).
  { unfold handler_outcome.
    destruct H as [H | (context & Hc & Hb & Hg)];
      rewrite retrieval_outcome_eq in *.
    - rewrite H. reflexivity.
    - rewrite Hc, Hb, Hg. reflexivity. }
  split; [rewrite query_jee_run; exact Ho|].
  split; [apply Contains_suffix|].
  split; [|split].
  - intros payload Hv. rewrite (post_api_query_run _ _ _ _ Hv), Ho.
    change (HTTPException 500 detail) with (internal_error e).
    rewrite exception_response_internal_error. reflexivity.
  - intros request' e'. rewrite query_jee_run. intros Hr.
    apply handler_outcome_raise in Hr. destruct Hr as (cause & ->).
    unfold internal_error. eauto.
  - apply serve_total.
Qed.

Lemma C3_witness :
  let failure :=
    PyExc (LibraryError (py "ConnectionError")) (py "connection refused") in
  let w := sample_world (Raise failure) sample_reply_ok in
  let g := sample_globals (Raise failure) in
  outcome (query_chroma_collection g (query sample_request)
             (n_results sample_request)) = Raise failure
  /\ outcome (query_jee w g sample_request)
     = Raise (HTTPException 500 (py "Internal server error: connection refused"))
  /\ outcome (post_api_query w g sample_payload)
     = Return {| status := 500;
                 body := JSONBody
                   (VDict [ (py "detail",
                             VStr (py "Internal server error: connection refused")) ]) |}.
Proof.
  intros failure w g.
  split; [reflexivity|].
  destruct (C3_client_failures_become_500 w g sample_request failure
              (or_introl eq_refl)) as (H1 & _ & H3 & _).
  split; [exact H1|]. exact (H3 sample_payload eq_refl).
Defined.

(** C3 as stated fails for the caller's response: when the completion
    endpoint answers 503 with a text that is one lone surrogate, the handler
    does raise the [HTTPException] with the description in its detail, but
    the detail cannot be encoded and the caller gets the plain 500 response,
    which has no detail. *)
Lemma C3_counterexample :
  let found := Return (Documents [[py "Doc A"]]) in
  let w := sample_world found sample_reply_surrogate in
  let g := sample_globals found in
  outcome (call_perplexity_api w g (query sample_request) (py "Doc A"))
    = Raise (PyExc Exception (py "Perplexity API error: 503 " ++ [55296%N]))
  /\ outcome (query_jee w g sample_request)
     = Raise (HTTPException 500
                (py "Internal server error: Perplexity API error: 503 "
                 ++ [55296%N]))
  /\ outcome (post_api_query w g sample_payload)
     = Return {| status := 500; body := TextBody (py "Internal Server Error") |}.
Proof.
  intros found w g. repeat split; vm_compute; reflexivity.
Qed.

(** ** The generation client *)

Lemma call_perplexity_api_non_200 w g query context response :
  requests_post w perplexity_url (perplexity_headers g)
    (perplexity_payload (prompt_of query context)) = Return response ->
  status_code response <> 200 ->
  outcome (call_perplexity_api w g query context)
  = Raise (perplexity_error response).
Proof.
  intros Hp Hs. apply Z.eqb_neq in Hs.
  unfold call_perplexity_api, outcome, bind, emit, lift, raise. simpl.
  rewrite Hp. simpl. rewrite Hs. reflexivity.
Qed.

Lemma generation_log_one_post g query context :
  List.length (filter is_post (generation_log g query context)) = 1%nat.
Proof. reflexivity. Qed.

Lemma retrieval_log_no_post query n_results :
  filter is_post (retrieval_log query n_results) = [].
Proof. reflexivity. Qed.

Lemma encodable_perplexity_error (response : Response) :
  encodable (str_exc (perplexity_error response)) = encodable (text response).
Proof.
  unfold perplexity_error, str_exc.
  rewrite !encodable_app, encodable_str_of_int. reflexivity.
Qed.

(** C5 (amended): when the completion endpoint answers with a status other
    than 200, the generation client raises an exception whose message
    contains the status code and the raw body of the answer, and the handler
    raises the [HTTPException] with status 500 whose detail contains both;
    the endpoint is asked once, with no retry.  The caller gets a response
    with status 500: it carries that detail when the body text can be
    encoded to UTF-8, and is the framework's plain "Internal Server Error"
    when the text holds a surrogate code point. *)
Theorem C5_non_200_status_and_body_in_detail
  (w : World) (g : Globals) (q context : str) (response : Response) :
  requests_post w perplexity_url (perplexity_headers g)
    (perplexity_payload (prompt_of q context)) = Return response ->
  status_code response <> 200 ->
  let message :=
    py "Perplexity API error: " ++ str_of_int (status_code response)
    ++ py " " ++ text response in
  let detail := py "Internal server error: " ++ message in
  outcome (call_perplexity_api w g q context)
    = Raise (PyExc Exception message)
  /\ Contains message (str_of_int (status_code response))
  /\ Contains message (text response)
  /\ List.length (filter is_post (calls (call_perplexity_api w g q context)))
     = 1%nat
  /\ forall payload request,
       QueryRequest_validate (pydantic w) payload = Return request ->
       query request = q ->
       outcome (query_chroma_collection g q (n_results request))
         = Return context ->
       blank context = false ->
       outcome (query_jee w g request) = Raise (HTTPException 500 detail)
       /\ outcome (post_api_query w g payload)
          = Return (if encodable (text response) then
                      {| status := 500;
                         body := JSONBody (VDict [ (py "detail", VStr detail) ]) |}
                    else
                      {| status := 500;
                         body := TextBody (py "Internal Server Error") |})
       /\ Contains detail (str_of_int (status_code response))
       /\ Contains detail (text response)
       /\ List.length (filter is_post (calls (post_api_query w g payload)))
          = 1%nat.
Proof.
  intros Hp Hs message detail.
  pose proof (call_perplexity_api_non_200 _ _ _ _ _ Hp Hs) as Hr.
  assert (Hm1 : Contains message (str_of_int (status_code response))).
  { apply Contains_infix. }
  assert (Hm2 : Contains message (text response)).
  { unfold message. rewrite !app_assoc. apply Contains_suffix. }
  split; [exact Hr|]. split; [exact Hm1|]. split; [exact Hm2|].
  split; [rewrite call_perplexity_api_calls; reflexivity|].
  intros payload request Hv Hq Hc Hb. subst q.
  rewrite retrieval_outcome_eq in Hc.
  assert (Ho : handler_outcome w g request
               = Raise (internal_error (perplexity_error response))).
  { unfold handler_outcome. rewrite Hc, Hb, Hr. reflexivity. }
  split; [rewrite query_jee_run; exact Ho|].
  rewrite (post_api_query_run _ _ _ _ Hv). unfold outcome, calls. simpl fst.
  simpl snd. rewrite Ho. unfold handler_log. rewrite Hc, Hb.
  split; [rewrite exception_response_internal_error,
            encodable_perplexity_error; reflexivity|].
  split; [apply Contains_app_r; exact Hm1|].
  split; [apply Contains_app_r; exact Hm2|].
  reflexivity.
Qed.

Lemma C5_witness :
  let found := Return (Documents [[py "Doc A"]]) in
  let w := sample_world found sample_reply_503 in
  let g := sample_globals found in
  let response :=
    {| status_code := 503;
       text := py "upstream unavailable";
       json := Raise (PyExc (LibraryError (py "JSONDecodeError"))
                        (py "Expecting value: line 1 column 1 (char 0)")) |} in
  requests_post w perplexity_url (perplexity_headers g)
    (perplexity_payload (prompt_of (py "What is projectile motion?") (py "Doc A")))
    = Return response
  /\ status_code response <> 200
  /\ outcome (call_perplexity_api w g (py "What is projectile motion?") (py "Doc A"))
     = Raise (PyExc Exception (py "Perplexity API error: 503 upstream unavailable"))
  /\ outcome (post_api_query w g sample_payload)
     = Return {| status := 500;
                 body := JSONBody
                   (VDict [ (py "detail",
                             VStr (py "Internal server error: Perplexity API error: 503 upstream unavailable")) ]) |}.
Proof.
  intros found w g response.
  split; [reflexivity|]. split; [discriminate|].
  destruct (C5_non_200_status_and_body_in_detail w g
              (py "What is projectile motion?") (py "Doc A") response
              eq_refl ltac:(discriminate)) as (H1 & _ & _ & _ & H5).
  split; [exact H1|].
  exact (proj1 (proj2 (H5 sample_payload sample_request
                         eq_refl eq_refl eq_refl eq_refl))).
Defined.

(** C5 as stated fails for the caller's response: the endpoint answers 503
    with a text that is one lone surrogate; the generation client raises
    with the status and the text in its message, but the response the caller
    gets is the plain 500 one: it has no detail, so neither the status code
    nor the body text is in it. *)
Lemma C5_counterexample :
  let found := Return (Documents [[py "Doc A"]]) in
  let w := sample_world found sample_reply_surrogate in
  let g := sample_globals found in
  requests_post w perplexity_url (perplexity_headers g)
    (perplexity_payload (prompt_of (query sample_request) (py "Doc A")))
    = sample_reply_surrogate
  /\ outcome (post_api_query w g sample_payload)
     = Return {| status := 500; body := TextBody (py "Internal Server Error") |}
  /\ forall detail,
       outcome (post_api_query w g sample_payload)
       <> Return {| status := 500;
                    body := JSONBody (VDict [ (py "detail", VStr detail) ]) |}.
Proof.
  intros found w g. split; [reflexivity|].
  assert (H : outcome (post_api_query w g sample_payload)
              = Return {| status := 500;
                          body := TextBody (py "Internal Server Error") |}).
  { vm_compute. reflexivity. }
  split; [exact H|]. intros detail. rewrite H. discriminate.
Qed.

(** ** Validation of the request *)

Lemma handler_log_retrieval_calls g request :
  retrieval_calls (handler_log g request)
  = [(query request, n_results request)].
Proof.
  unfold handler_log. rewrite retrieval_calls_app. simpl.
  destruct (retrieval_outcome _ _ _) as [context|e]; [|reflexivity].
  destruct (blank context); reflexivity.
Qed.

Lemma handler_log_collection_query g request :
  In (Ev_collection_query [query request] (n_results request))
     (handler_log g request).
Proof. unfold handler_log, retrieval_log. simpl. auto. Qed.

(** C6: a request body without the [n_results] field is parsed into a
    [QueryRequest] whose [n_results] is 3, and the retrieval client, and
    through it the collection, is queried with [n_results] = 3. *)
Theorem C6_n_results_defaults_to_3
  (w : World) (g : Globals) (items : list (str * value))
  (request : QueryRequest) :
  dict_get (py "n_results") items = None ->
  QueryRequest_validate (pydantic w) (VDict items) = Return request ->
  n_results request = 3
  /\ retrieval_calls (calls (post_api_query w g (VDict items)))
     = [(query request, 3)]
  /\ In (Ev_collection_query [query request] 3)
        (calls (post_api_query w g (VDict items))).
Proof.
  intros Hn Hv.
  assert (H3 : n_results request = 3).
  { unfold QueryRequest_validate in Hv. rewrite Hn in Hv.
    destruct (dict_get (py "query") items) as [qv|]; [|discriminate].
    destruct (validate_str (pydantic w) qv) as [q|e]; [|discriminate].
    injection Hv as <-. reflexivity. }
  split; [exact H3|].
  rewrite (post_api_query_run _ _ _ _ Hv). unfold calls. simpl snd.
  rewrite <- H3.
  split; [apply handler_log_retrieval_calls | apply handler_log_collection_query].
Qed.

Lemma C6_witness :
  let found := Return (Documents [[py "Doc A"]]) in
  let w := sample_world found sample_reply_ok in
  let g := sample_globals found in
  let items := [ (py "query", VStr (py "What is projectile motion?")) ] in
  dict_get (py "n_results") items = None
  /\ QueryRequest_validate (pydantic w) (VDict items) = Return sample_request
  /\ n_results sample_request = 3
  /\ retrieval_calls (calls (post_api_query w g (VDict items)))
     = [(py "What is projectile motion?", 3)].
Proof.
  intros found w g items.
  split; [reflexivity|]. split; [reflexivity|].
  destruct (C6_n_results_defaults_to_3 w g items sample_request eq_refl eq_refl)
    as (H1 & H2 & _).
  split; [exact H1 | exact H2].
Defined.

(** C7 (amended): for a request that passes validation, the [n_results]
    handed to the retrieval client, and on to the collection, is the integer
    of the request as it is; validation has no check of its sign, so any
    integer, zero and the negative ones included, is accepted and
    forwarded. *)
Theorem C7_n_results_forwarded_unchecked
  (w : World) (g : Globals) (payload : value) (request : QueryRequest) :
  QueryRequest_validate (pydantic w) payload = Return request ->
  retrieval_calls (calls (post_api_query w g payload))
    = [(query request, n_results request)]
  /\ In (Ev_collection_query [query request] (n_results request))
        (calls (post_api_query w g payload))
  /\ (forall q n,
        QueryRequest_validate (pydantic w)
          (VDict [ (py "query", VStr q); (py "n_results", VInt n) ])
        = Return {| query := q; n_results := n |}).
Proof.
  intros Hv.
  rewrite (post_api_query_run _ _ _ _ Hv). unfold calls. simpl snd.
  split; [apply handler_log_retrieval_calls|].
  split; [apply handler_log_collection_query|].
  reflexivity.
Qed.

Lemma C7_witness :
  let w := sample_world sample_count_refused sample_reply_ok in
  let g := sample_globals sample_count_refused in
  QueryRequest_validate (pydantic w) sample_payload_zero
    = Return {| query := py "What is projectile motion?"; n_results := 0 |}
  /\ retrieval_calls (calls (post_api_query w g sample_payload_zero))
     = [(py "What is projectile motion?", 0)].
Proof.
  intros w g.
  split; [reflexivity|].
  exact (proj1 (C7_n_results_forwarded_unchecked w g sample_payload_zero
                  {| query := py "What is projectile motion?"; n_results := 0 |}
                  eq_refl)).
Defined.

(** C7 as stated fails: the body with [n_results] = 0 passes validation, and
    the retrieval client and the collection are called with 0. *)
Lemma C7_counterexample :
  let w := sample_world sample_count_refused sample_reply_ok in
  let g := sample_globals sample_count_refused in
  QueryRequest_validate (pydantic w) sample_payload_zero
    = Return {| query := py "What is projectile motion?"; n_results := 0 |}
  /\ calls (post_api_query w g sample_payload_zero)
     = [ Ev_query_chroma_collection (py "What is projectile motion?") 0;
         Ev_collection_query [py "What is projectile motion?"] 0 ]
  /\ ~ (forall payload request,
          QueryRequest_validate (pydantic w) payload = Return request ->
          forall q n,
            In (q, n) (retrieval_calls (calls (post_api_query w g payload))) ->
            0 < n).
Proof.
  intros w g.
  split; [reflexivity|]. split; [vm_compute; reflexivity|].
  intros H.
  specialize (H sample_payload_zero _ eq_refl (py "What is projectile motion?") 0).
  assert (Hin : In (py "What is projectile motion?", 0)
                  (retrieval_calls (calls (post_api_query w g sample_payload_zero)))).
  { vm_compute. left. reflexivity. }
  apply H in Hin. lia.
Qed.

(** ** Start-up *)

Lemma truthy_value_some (x : option str) (s : str) :
  truthy_value x = Some s -> x = Some s.
Proof.
  destruct x as [[|c r]|]; simpl; [discriminate| |discriminate].
  intros [= <-]. reflexivity.
Qed.

Lemma process_init_raises w payloads e t :
  module_init w = (Raise e, t) ->
  process w payloads = (Raise e, t).
Proof. intros H. unfold process, bind. rewrite H. reflexivity. Qed.

(** C4: when the completion-API key, the vector-database key or the tenant
    identifier is absent from the environment, or the configured collection
    cannot be opened (the client cannot be built, or [get_collection]
    fails), the import of the module raises an exception: the process ends
    there, no request is handled, and the collection is asked for at most
    once (no retry).  The exception is a [RuntimeError] except when it is
    the client's constructor that fails, whose exception leaves as it is. *)
Theorem C4_incomplete_configuration_is_fatal (w : World) :
  (os_getenv w (py "PERPLEXITY_API_KEY") = None
   \/ os_getenv w (py "CHROMA_CLOUD_API_KEY") = None
   \/ os_getenv w (py "CHROMA_CLOUD_TENANT") = None
   \/ exists api_key tenant,
        os_getenv w (py "CHROMA_CLOUD_API_KEY") = Some api_key
        /\ os_getenv w (py "CHROMA_CLOUD_TENANT") = Some tenant
        /\ match chromadb_CloudClient w api_key tenant CHROMA_DB with
           | Raise _ => True
           | Return client =>
               exists e, Client_get_collection client CHROMA_COLLECTION = Raise e
           end) ->
  exists error,
    outcome (module_init w) = Raise error
    /\ (error = PyExc RuntimeError missing_keys_message
        \/ (exists e, error = PyExc RuntimeError (collection_failure_message e))
        \/ (exists api_key tenant,
              chromadb_CloudClient w api_key tenant CHROMA_DB = Raise error))
    /\ (List.length (filter is_get_collection (calls (module_init w))) <= 1)%nat
    /\ forall payloads,
         outcome (process w payloads) = Raise error
         /\ calls (process w payloads) = calls (module_init w)
         /\ retrieval_calls (calls (process w payloads)) = []
         /\ generation_calls (calls (process w payloads)) = [].
Proof.
  intros H.
  assert (Hrun :
    exists error t,
      module_init w = (Raise error, t)
      /\ (error = PyExc RuntimeError missing_keys_message
          \/ (exists e, error = PyExc RuntimeError (collection_failure_message e))
          \/ (exists api_key tenant,
                chromadb_CloudClient w api_key tenant CHROMA_DB = Raise error))
      /\ (List.length (filter is_get_collection t) <= 1)%nat
      /\ retrieval_calls t = [] /\ generation_calls t = []).
  { unfold module_init.
    destruct (truthy_value (os_getenv w (py "PERPLEXITY_API_KEY")))
      as [pk|] eqn:Ep;
      [|exists (PyExc RuntimeError missing_keys_message), []; simpl; auto 6].
    destruct (truthy_value (os_getenv w (py "CHROMA_CLOUD_API_KEY")))
      as [ck|] eqn:Ec;
      [|exists (PyExc RuntimeError missing_keys_message), []; simpl; auto 6].
    destruct (truthy_value (os_getenv w (py "CHROMA_CLOUD_TENANT")))
      as [ct|] eqn:Et;
      [|exists (PyExc RuntimeError missing_keys_message), []; simpl; auto 6].
    apply truthy_value_some in Ep, Ec, Et.
    destruct H as [H | [H | [H | (api_key & tenant & Hk & Ht & Hc)]]];
      try congruence.
    assert (api_key = ck) by congruence. assert (tenant = ct) by congruence.
    subst api_key tenant.
    unfold bind, emit, lift, try_except, raise. simpl.
    destruct (chromadb_CloudClient w ck ct CHROMA_DB) as [client|e0] eqn:Ecc.
    - destruct Hc as (e & Hg). simpl. rewrite Hg.
      eexists _, _. split; [reflexivity|]. simpl. split; [eauto|]. auto.
    - eexists _, _. split; [reflexivity|]. simpl. split; [eauto 6|]. auto. }
  destruct Hrun as (error & t & Hrun & Hkind & Hretry & Hr & Hg).
  exists error. rewrite Hrun. split; [reflexivity|]. split; [exact Hkind|].
  split; [exact Hretry|].
  intros payloads. rewrite (process_init_raises _ payloads _ _ Hrun).
  repeat split; assumption.
Qed.

Lemma C4_witness :
  os_getenv sample_world_no_key (py "PERPLEXITY_API_KEY") = None
  /\ (exists error,
        outcome (module_init sample_world_no_key) = Raise error
        /\ outcome (process sample_world_no_key [sample_payload]) = Raise error)
  /\ Client_get_collection sample_client_no_collection CHROMA_COLLECTION
     = Raise (PyExc (LibraryError (py "NotFoundError"))
                (py "Collection [Kinematics] does not exist"))
  /\ (exists error,
        outcome (module_init sample_world_no_collection) = Raise error
        /\ outcome (process sample_world_no_collection [sample_payload])
           = Raise error).
Proof.
  split; [reflexivity|]. split.
  - destruct (C4_incomplete_configuration_is_fatal sample_world_no_key
                (or_introl eq_refl)) as (error & H1 & _ & _ & H4).
    exists error. split; [exact H1 | exact (proj1 (H4 [sample_payload]))].
  - split; [reflexivity|].
    destruct (C4_incomplete_configuration_is_fatal sample_world_no_collection
                (or_intror (or_intror (or_intror
                   (ex_intro _ (py "chroma-key")
                      (ex_intro _ (py "tenant-1")
                         (conj eq_refl (conj eq_refl
                            (ex_intro _ _ eq_refl)))))))))
      as (error & H1 & _ & _ & H4).
    exists error. split; [exact H1 | exact (proj1 (H4 [sample_payload]))].
Defined.

(** * Further properties of the module *)

(** ** Start-up, continued *)

Lemma truthy_value_nonempty (x : option str) (s : str) :
  truthy_value x = Some s -> s <> [].
Proof.
  destruct x as [[|c r]|]; simpl; [discriminate| |discriminate].
  intros [= <-]. discriminate.
Qed.

Lemma truthy_value_of_nonempty (s : str) :
  s <> [] -> truthy_value (Some s) = Some s.
Proof. destruct s; [congruence | reflexivity]. Qed.

Lemma module_init_run w pk ck ct :
  truthy_value (os_getenv w (py "PERPLEXITY_API_KEY")) = Some pk ->
  truthy_value (os_getenv w (py "CHROMA_CLOUD_API_KEY")) = Some ck ->
  truthy_value (os_getenv w (py "CHROMA_CLOUD_TENANT")) = Some ct ->
  module_init w
  = match chromadb_CloudClient w ck ct CHROMA_DB with
    | Raise e => (Raise e, [ Ev_CloudClient ck ct CHROMA_DB ])
    | Return client =>
        (match Client_get_collection client CHROMA_COLLECTION with
         | Raise e => Raise (PyExc RuntimeError (collection_failure_message e))
         | Return collection =>
             Return {| PERPLEXITY_API_KEY := pk;
                       CHROMA_API_KEY := ck;
                       CHROMA_TENANT := ct;
                       knowledge_collection := collection |}
         end,
         [ Ev_CloudClient ck ct CHROMA_DB; Ev_get_collection CHROMA_COLLECTION ])
    end.
Proof.
  intros Hp Hc Ht. unfold module_init. rewrite Hp, Hc, Ht.
  unfold bind, emit, lift, try_except, raise, ret. simpl.
  destruct (chromadb_CloudClient w ck ct CHROMA_DB) as [client|e]; simpl;
    [|reflexivity].
  destruct (Client_get_collection client CHROMA_COLLECTION); reflexivity.
Qed.

Lemma module_init_returns w g :
  outcome (module_init w) = Return g ->
  exists client,
    truthy_value (os_getenv w (py "PERPLEXITY_API_KEY"))
      = Some (PERPLEXITY_API_KEY g)
    /\ chromadb_CloudClient w (CHROMA_API_KEY g) (CHROMA_TENANT g) CHROMA_DB
       = Return client
    /\ Client_get_collection client CHROMA_COLLECTION
       = Return (knowledge_collection g)
    /\ module_init w
       = (Return g,
          [ Ev_CloudClient (CHROMA_API_KEY g) (CHROMA_TENANT g) CHROMA_DB;
            Ev_get_collection CHROMA_COLLECTION ]).
Proof.
  destruct (truthy_value (os_getenv w (py "PERPLEXITY_API_KEY")))
    as [pk|] eqn:Ep;
    [|unfold module_init; rewrite Ep; discriminate].
  destruct (truthy_value (os_getenv w (py "CHROMA_CLOUD_API_KEY")))
    as [ck|] eqn:Ec;
    [|unfold module_init; rewrite Ep, Ec; discriminate].
  destruct (truthy_value (os_getenv w (py "CHROMA_CLOUD_TENANT")))
    as [ct|] eqn:Et;
    [|unfold module_init; rewrite Ep, Ec, Et; discriminate].
  rewrite (module_init_run _ _ _ _ Ep Ec Et).
  destruct (chromadb_CloudClient w ck ct CHROMA_DB) as [client|e] eqn:Ecc;
    [|discriminate].
  destruct (Client_get_collection client CHROMA_COLLECTION)
    as [collection|e] eqn:Eg; [|discriminate].
  unfold outcome. simpl. intros [= <-]. simpl.
  exists client. repeat split; assumption.
Qed.

(** X1: with the three values set and not empty, a client that can be built
    and a collection that opens, the import succeeds: the globals hold the
    three values and the collection, the client was built once with the key,
    the tenant and the database "Kinematics", and the collection
    "Kinematics" was asked for once. *)
Theorem module_init_success
  (w : World) (pk ck ct : str) (client : Client) (collection : Collection) :
  os_getenv w (py "PERPLEXITY_API_KEY") = Some pk -> pk <> [] ->
  os_getenv w (py "CHROMA_CLOUD_API_KEY") = Some ck -> ck <> [] ->
  os_getenv w (py "CHROMA_CLOUD_TENANT") = Some ct -> ct <> [] ->
  chromadb_CloudClient w ck ct (py "Kinematics") = Return client ->
  Client_get_collection client (py "Kinematics") = Return collection ->
  module_init w
  = (Return {| PERPLEXITY_API_KEY := pk;
               CHROMA_API_KEY := ck;
               CHROMA_TENANT := ct;
               knowledge_collection := collection |},
     [ Ev_CloudClient ck ct (py "Kinematics");
       Ev_get_collection (py "Kinematics") ]).
Proof.
  intros Hp Np Hc Nc Ht Nt Hcc Hg.
  rewrite (module_init_run w pk ck ct).
  - change CHROMA_DB with (py "Kinematics").
    change CHROMA_COLLECTION with (py "Kinematics").
    rewrite Hcc, Hg. reflexivity.
  - rewrite Hp. apply truthy_value_of_nonempty, Np.
  - rewrite Hc. apply truthy_value_of_nonempty, Nc.
  - rewrite Ht. apply truthy_value_of_nonempty, Nt.
Qed.

Lemma module_init_success_witness :
  let found := Return (Documents [[py "Doc A"]]) in
  module_init (sample_world found sample_reply_ok)
  = (Return (sample_globals found),
     [ Ev_CloudClient (py "chroma-key") (py "tenant-1") (py "Kinematics");
       Ev_get_collection (py "Kinematics") ]).
Proof.
  intros found.
  exact (module_init_success (sample_world found sample_reply_ok)
           (py "pplx-key") (py "chroma-key") (py "tenant-1")
           {| Client_get_collection := fun _ => Return (sample_collection found) |}
           (sample_collection found)
           eq_refl ltac:(discriminate) eq_refl ltac:(discriminate)
           eq_refl ltac:(discriminate) eq_refl eq_refl).
Defined.

(** X2: a value that is set to the empty string counts as missing: when one
    of the three is absent or empty, the import raises the [RuntimeError]
    about missing keys before anything is asked of ChromaDB. *)
Theorem module_init_missing_or_empty_value (w : World) (k : str) :
  In k [ py "PERPLEXITY_API_KEY"; py "CHROMA_CLOUD_API_KEY";
         py "CHROMA_CLOUD_TENANT" ] ->
  os_getenv w k = None \/ os_getenv w k = Some (py "") ->
  module_init w = (Raise (PyExc RuntimeError missing_keys_message), []).
Proof.
  intros Hk Hv.
  assert (Hn : truthy_value (os_getenv w k) = None).
  { destruct Hv as [-> | ->]; reflexivity. }
  unfold module_init.
  destruct Hk as [<- | [<- | [<- | []]]]; rewrite Hn.
  - reflexivity.
  - destruct (truthy_value (os_getenv w (py "PERPLEXITY_API_KEY")));
      reflexivity.
  - destruct (truthy_value (os_getenv w (py "PERPLEXITY_API_KEY")));
      [|reflexivity].
    destruct (truthy_value (os_getenv w (py "CHROMA_CLOUD_API_KEY")));
      reflexivity.
Qed.

Lemma module_init_missing_or_empty_value_witness :
  os_getenv sample_world_empty_key (py "PERPLEXITY_API_KEY") = Some (py "")
  /\ module_init sample_world_empty_key
     = (Raise (PyExc RuntimeError missing_keys_message), []).
Proof.
  split; [reflexivity|].
  apply (module_init_missing_or_empty_value sample_world_empty_key
           (py "PERPLEXITY_API_KEY")).
  - left. reflexivity.
  - right. reflexivity.
Defined.

(** X3: the completion-API key read from the environment at start-up is the
    one sent with every completion request: the request goes to the fixed
    URL with the header [Authorization: Bearer <key>], and the key is not
    empty. *)
Theorem api_key_of_environment_sent_as_bearer
  (w : World) (g : Globals) (q context : str) :
  outcome (module_init w) = Return g ->
  exists key,
    os_getenv w (py "PERPLEXITY_API_KEY") = Some key
    /\ key <> []
    /\ calls (call_perplexity_api w g q context)
       = [ Ev_call_perplexity_api q context;
           Ev_requests_post (py "https://api.perplexity.ai/chat/completions")
             [ (py "Authorization", py "Bearer " ++ key);
               (py "Content-Type", py "application/json") ]
             (perplexity_payload (prompt_of q context)) ].
Proof.
  intros Hg. destruct (module_init_returns _ _ Hg) as (client & Hk & _).
  exists (PERPLEXITY_API_KEY g).
  split; [exact (truthy_value_some _ _ Hk)|].
  split; [exact (truthy_value_nonempty _ _ Hk)|].
  rewrite call_perplexity_api_calls. reflexivity.
Qed.

Lemma api_key_of_environment_sent_as_bearer_witness :
  let found := Return (Documents [[py "Doc A"]]) in
  let w := sample_world found sample_reply_ok in
  outcome (module_init w) = Return (sample_globals found)
  /\ exists key,
       os_getenv w (py "PERPLEXITY_API_KEY") = Some key
       /\ key <> []
       /\ calls (call_perplexity_api w (sample_globals found)
                   (py "What is projectile motion?") (py "Doc A"))
          = [ Ev_call_perplexity_api (py "What is projectile motion?") (py "Doc A");
              Ev_requests_post (py "https://api.perplexity.ai/chat/completions")
                [ (py "Authorization", py "Bearer " ++ key);
                  (py "Content-Type", py "application/json") ]
                (perplexity_payload
                   (prompt_of (py "What is projectile motion?") (py "Doc A"))) ].
Proof.
  intros found w. split; [reflexivity|].
  exact (api_key_of_environment_sent_as_bearer w (sample_globals found)
           (py "What is projectile motion?") (py "Doc A") eq_refl).
Defined.

(** ** The generation client, continued *)

Lemma call_perplexity_api_200 w g q context response :
  requests_post w perplexity_url (perplexity_headers g)
    (perplexity_payload (prompt_of q context)) = Return response ->
  status_code response = 200 ->
  outcome (call_perplexity_api w g q context)
  = match json response with
    | Raise e => Raise e
    | Return data =>
        match getitem_key data (py "choices") with
        | Raise e => Raise e
        | Return choices =>
            match getitem_0 choices with
            | Raise e => Raise e
            | Return choice =>
                match getitem_key choice (py "message") with
                | Raise e => Raise e
                | Return message => getitem_key message (py "content")
                end
            end
        end
    end.
Proof.
  intros Hp Hs. apply Z.eqb_eq in Hs.
  unfold call_perplexity_api, outcome, bind, emit, lift, raise. simpl.
  rewrite Hp. simpl. rewrite Hs.
  destruct (json response) as [data|e]; simpl; [|reflexivity].
  destruct (getitem_key data _) as [choices|e]; simpl; [|reflexivity].
  destruct (getitem_0 choices) as [choice|e]; simpl; [|reflexivity].
  destruct (getitem_key choice _) as [message|e]; simpl; [|reflexivity].
  destruct (getitem_key message _); reflexivity.
Qed.

Lemma query_jee_generation_raises w g request context e :
  outcome (query_chroma_collection g (query request) (n_results request))
    = Return context ->
  blank context = false ->
  outcome (call_perplexity_api w g (query request) context) = Raise e ->
  outcome (query_jee w g request) = Raise (internal_error e).
Proof.
  intros Hc Hb He. rewrite retrieval_outcome_eq in Hc.
  rewrite query_jee_run. unfold outcome at 1. simpl fst.
  unfold handler_outcome. rewrite Hc, Hb, He. reflexivity.
Qed.

(** X4: when the completion endpoint answers 200, the generation client
    returns the object at [choices][0][message][content] of the decoded
    body: the first choice decides, further choices and the raw text of the
    answer are not looked at. *)
Theorem call_perplexity_api_returns_first_choice
  (w : World) (g : Globals) (q context : str) (response : Response)
  (data choice message content : value) (others : list value) :
  requests_post w perplexity_url (perplexity_headers g)
    (perplexity_payload (prompt_of q context)) = Return response ->
  status_code response = 200 ->
  json response = Return data ->
  getitem_key data (py "choices") = Return (VList (choice :: others)) ->
  getitem_key choice (py "message") = Return message ->
  getitem_key message (py "content") = Return content ->
  outcome (call_perplexity_api w g q context) = Return content.
Proof.
  intros Hp Hs Hj Hc Hm Hk.
  rewrite (call_perplexity_api_200 _ _ _ _ _ Hp Hs), Hj, Hc.
  cbn [getitem_0 list_getitem_0]. rewrite Hm. exact Hk.
Qed.

Lemma call_perplexity_api_returns_first_choice_witness :
  let found := Return (Documents [[py "Doc A"]]) in
  let w := sample_world found (sample_reply_200 sample_two_choices) in
  outcome (call_perplexity_api w (sample_globals found)
             (py "What is projectile motion?") (py "Doc A"))
  = Return (VStr (py "<p>First.</p>")).
Proof.
  intros found w.
  exact (call_perplexity_api_returns_first_choice w (sample_globals found)
           (py "What is projectile motion?") (py "Doc A")
           {| status_code := 200; text := py "{...}";
              json := Return sample_two_choices |}
           sample_two_choices _ _ _ _
           eq_refl eq_refl eq_refl eq_refl eq_refl eq_refl).
Defined.

Lemma renderable_answer (a : str) :
  renderable (VDict [ (py "thinking", VStr (py "")); (py "answer", VStr a) ])
  = encodable a.
Proof. simpl. apply andb_true_r. Qed.

(** X5: when the context is not blank and the generation client returns a
    text, the handler returns it as the answer exactly as it came (it is
    neither stripped nor parsed), with an empty [thinking].  The caller gets
    status 200 with these two fields when the text can be encoded to UTF-8;
    a text with a surrogate code point cannot be rendered and the caller
    gets the framework's plain 500 response. *)
Theorem query_jee_answer_is_completion_text
  (w : World) (g : Globals) (request : QueryRequest) (context a : str) :
  outcome (query_chroma_collection g (query request) (n_results request))
    = Return context ->
  blank context = false ->
  outcome (call_perplexity_api w g (query request) context) = Return (VStr a) ->
  outcome (query_jee w g request) = Return {| thinking := py ""; answer := a |}
  /\ forall payload,
       QueryRequest_validate (pydantic w) payload = Return request ->
       outcome (post_api_query w g payload)
       = Return (if encodable a then
                   {| status := 200;
                      body := JSONBody (VDict [ (py "thinking", VStr (py ""));
                                                (py "answer", VStr a) ]) |}
                 else
                   {| status := 500;
                      body := TextBody (py "Internal Server Error") |}).
Proof.
  intros Hc Hb Ha. rewrite retrieval_outcome_eq in Hc.
  assert (Ho : handler_outcome w g request
               = Return {| thinking := py ""; answer := a |}).
  { unfold handler_outcome. rewrite Hc, Hb, Ha. reflexivity. }
  split.
  - rewrite query_jee_run. exact Ho.
  - intros payload Hv. rewrite (post_api_query_run _ _ _ _ Hv), Ho.
    unfold json_response, response_model. cbn [thinking answer].
    rewrite renderable_answer. reflexivity.
Qed.

Lemma query_jee_answer_is_completion_text_witness :
  let found := Return (Documents [[py "Doc A"]]) in
  let w := sample_world found (sample_reply_200 (sample_completion (py " ok "))) in
  let g := sample_globals found in
  outcome (query_jee w g sample_request)
    = Return {| thinking := py ""; answer := py " ok " |}
  /\ outcome (post_api_query w g sample_payload)
     = Return {| status := 200;
                 body := JSONBody (VDict [ (py "thinking", VStr (py ""));
                                           (py "answer", VStr (py " ok ")) ]) |}.
Proof.
  intros found w g.
  destruct (query_jee_answer_is_completion_text w g sample_request
              (py "Doc A") (py " ok ") eq_refl eq_refl eq_refl) as (H1 & H2).
  split; [exact H1 | exact (H2 sample_payload eq_refl)].
Defined.

(** X6: when the endpoint answers 200 with a JSON object that has no
    [choices] key, the generation client raises [KeyError('choices')], and
    the caller gets status 500 with the detail
    "Internal server error: 'choices'". *)
Theorem completion_without_choices_is_500
  (w : World) (g : Globals) (request : QueryRequest) (context : str)
  (response : Response) (items : list (str * value)) :
  outcome (query_chroma_collection g (query request) (n_results request))
    = Return context ->
  blank context = false ->
  requests_post w perplexity_url (perplexity_headers g)
    (perplexity_payload (prompt_of (query request) context)) = Return response ->
  status_code response = 200 ->
  json response = Return (VDict items) ->
  dict_get (py "choices") items = None ->
  outcome (call_perplexity_api w g (query request) context)
    = Raise (PyExc KeyError (py "'choices'"))
  /\ outcome (query_jee w g request)
     = Raise (HTTPException 500 (py "Internal server error: 'choices'")).
Proof.
  intros Hc Hb Hp Hs Hj Hk.
  assert (He : outcome (call_perplexity_api w g (query request) context)
               = Raise (PyExc KeyError (py "'choices'"))).
  { rewrite (call_perplexity_api_200 _ _ _ _ _ Hp Hs), Hj.
    unfold getitem_key. rewrite Hk. reflexivity. }
  split; [exact He|].
  rewrite (query_jee_generation_raises _ _ _ _ _ Hc Hb He). reflexivity.
Qed.

Lemma completion_without_choices_is_500_witness :
  let found := Return (Documents [[py "Doc A"]]) in
  let data := VDict [ (py "error", VStr (py "quota exceeded")) ] in
  let w := sample_world found (sample_reply_200 data) in
  let g := sample_globals found in
  outcome (call_perplexity_api w g (query sample_request) (py "Doc A"))
    = Raise (PyExc KeyError (py "'choices'"))
  /\ outcome (query_jee w g sample_request)
     = Raise (HTTPException 500 (py "Internal server error: 'choices'")).
Proof.
  intros found data w g.
  exact (completion_without_choices_is_500 w g sample_request (py "Doc A")
           {| status_code := 200; text := py "{...}"; json := Return data |}
           [ (py "error", VStr (py "quota exceeded")) ]
           eq_refl eq_refl eq_refl eq_refl eq_refl eq_refl).
Defined.

(** X7: when the endpoint answers 200 with an empty list of choices, the
    generation client raises [IndexError], and the caller gets status 500
    with the detail "Internal server error: list index out of range". *)
Theorem completion_with_no_choice_is_500
  (w : World) (g : Globals) (request : QueryRequest) (context : str)
  (response : Response) (items : list (str * value)) :
  outcome (query_chroma_collection g (query request) (n_results request))
    = Return context ->
  blank context = false ->
  requests_post w perplexity_url (perplexity_headers g)
    (perplexity_payload (prompt_of (query request) context)) = Return response ->
  status_code response = 200 ->
  json response = Return (VDict items) ->
  dict_get (py "choices") items = Some (VList []) ->
  outcome (call_perplexity_api w g (query request) context)
    = Raise (PyExc IndexError (py "list index out of range"))
  /\ outcome (query_jee w g request)
     = Raise (HTTPException 500
                (py "Internal server error: list index out of range")).
Proof.
  intros Hc Hb Hp Hs Hj Hk.
  assert (He : outcome (call_perplexity_api w g (query request) context)
               = Raise (PyExc IndexError (py "list index out of range"))).
  { rewrite (call_perplexity_api_200 _ _ _ _ _ Hp Hs), Hj.
    unfold getitem_key. rewrite Hk. reflexivity. }
  split; [exact He|].
  rewrite (query_jee_generation_raises _ _ _ _ _ Hc Hb He). reflexivity.
Qed.

Lemma completion_with_no_choice_is_500_witness :
  let found := Return (Documents [[py "Doc A"]]) in
  let data := VDict [ (py "choices", VList []) ] in
  let w := sample_world found (sample_reply_200 data) in
  let g := sample_globals found in
  outcome (call_perplexity_api w g (query sample_request) (py "Doc A"))
    = Raise (PyExc IndexError (py "list index out of range"))
  /\ outcome (query_jee w g sample_request)
     = Raise (HTTPException 500
                (py "Internal server error: list index out of range")).
Proof.
  intros found data w g.
  exact (completion_with_no_choice_is_500 w g sample_request (py "Doc A")
           {| status_code := 200; text := py "{...}"; json := Return data |}
           [ (py "choices", VList []) ]
           eq_refl eq_refl eq_refl eq_refl eq_refl eq_refl).
Defined.

(** ** The retrieval client, continued *)

Lemma query_jee_retrieval_raises w g request e :
  outcome (query_chroma_collection g (query request) (n_results request))
    = Raise e ->
  query_jee w g request
  = (Raise (internal_error e),
     retrieval_log (query request) (n_results request)).
Proof.
  intros He. rewrite retrieval_outcome_eq in He. rewrite query_jee_run.
  unfold handler_outcome, handler_log. rewrite He, app_nil_r. reflexivity.
Qed.

(** X8: a query result whose [documents] entry is [None], or an empty list
    with no entry for the query, makes the retrieval client raise
    ([TypeError], respectively [IndexError]); the handler answers 500 and
    the generation client is not called. *)
Theorem retrieval_malformed_result_is_500
  (w : World) (g : Globals) (request : QueryRequest)
  (results : documents_entry) :
  Collection_query (knowledge_collection g) [query request] (n_results request)
    = Return results ->
  results = NoneValue \/ results = Documents [] ->
  exists e,
    outcome (query_chroma_collection g (query request) (n_results request))
      = Raise e
    /\ (results = NoneValue ->
        e = PyExc TypeError (py "'NoneType' object is not subscriptable"))
    /\ (results = Documents [] ->
        e = PyExc IndexError (py "list index out of range"))
    /\ outcome (query_jee w g request)
       = Raise (HTTPException 500 (py "Internal server error: " ++ str_exc e))
    /\ generation_calls (calls (query_jee w g request)) = [].
Proof.
  intros Hq Hr.
  assert (He : exists e, first_documents results = Raise e
                 /\ (results = NoneValue ->
                     e = PyExc TypeError (py "'NoneType' object is not subscriptable"))
                 /\ (results = Documents [] ->
                     e = PyExc IndexError (py "list index out of range"))).
  { destruct Hr as [-> | ->]; eexists; (split; [reflexivity|]);
      split; intros; (reflexivity || discriminate). }
  destruct He as (e & Hf & H1 & H2). exists e.
  assert (Ho : outcome (query_chroma_collection g (query request)
                          (n_results request)) = Raise e).
  { rewrite retrieval_outcome_eq. unfold retrieval_outcome.
    rewrite Hq, Hf. reflexivity. }
  split; [exact Ho|]. split; [exact H1|]. split; [exact H2|].
  rewrite (query_jee_retrieval_raises _ _ _ _ Ho). split; reflexivity.
Qed.

Lemma retrieval_malformed_result_is_500_witness :
  let w := sample_world (Return NoneValue) sample_reply_ok in
  let g := sample_globals (Return NoneValue) in
  outcome (query_jee w g sample_request)
    = Raise (HTTPException 500
               (py "Internal server error: 'NoneType' object is not subscriptable"))
  /\ generation_calls (calls (query_jee w g sample_request)) = [].
Proof.
  intros w g.
  destruct (retrieval_malformed_result_is_500 w g sample_request NoneValue
              eq_refl (or_introl eq_refl)) as (e & _ & H1 & _ & H3 & H4).
  rewrite (H1 eq_refl) in H3. split; [exact H3 | exact H4].
Defined.

(** X9: a query result without a [documents] key is read as one query with
    no document: the retrieval client returns the empty string and the
    handler gives the fixed "no relevant information" answer, without a
    completion request. *)
Theorem retrieval_result_without_documents_key
  (w : World) (g : Globals) (request : QueryRequest) :
  Collection_query (knowledge_collection g) [query request] (n_results request)
    = Return NoKey ->
  outcome (query_chroma_collection g (query request) (n_results request))
    = Return (py "")
  /\ query_jee w g request
     = (Return {| thinking := py ""; answer := no_information_answer |},
        [ Ev_query_chroma_collection (query request) (n_results request);
          Ev_collection_query [query request] (n_results request) ]).
Proof.
  intros Hq.
  assert (Ho : retrieval_outcome g (query request) (n_results request)
               = Return (py "")).
  { unfold retrieval_outcome. rewrite Hq. reflexivity. }
  split; [rewrite retrieval_outcome_eq; exact Ho|].
  rewrite query_jee_run. unfold handler_outcome, handler_log. rewrite Ho.
  reflexivity.
Qed.

Lemma retrieval_result_without_documents_key_witness :
  let w := sample_world (Return NoKey) sample_reply_ok in
  let g := sample_globals (Return NoKey) in
  outcome (query_chroma_collection g (query sample_request)
             (n_results sample_request)) = Return (py "")
  /\ outcome (query_jee w g sample_request)
     = Return {| thinking := py ""; answer := no_information_answer |}.
Proof.
  intros w g.
  destruct (retrieval_result_without_documents_key w g sample_request eq_refl)
    as (H1 & H2).
  split; [exact H1 | rewrite H2; reflexivity].
Defined.

Lemma join_contains (sep : str) (docs : list str) (d : str) :
  In d docs -> Contains (join sep docs) d.
Proof.
  induction docs as [|x rest IH]; [intros []|].
  intros [-> | Hin].
  - destruct rest as [|y rest'].
    + exists [], []. rewrite app_nil_r. reflexivity.
    + rewrite join_cons. exists [], (sep ++ join sep (y :: rest')). reflexivity.
  - destruct rest as [|y rest']; [destruct Hin|].
    rewrite join_cons. apply Contains_app_r, Contains_app_r, IH, Hin.
Qed.

(** X10: only the documents of the first (the only) query are used, and each
    of them occurs word for word in the context the retrieval client
    returns. *)
Theorem context_contains_every_document
  (g : Globals) (q : str) (n : Z) (docs : list str)
  (others : list (list str)) (d : str) :
  Collection_query (knowledge_collection g) [q] n
    = Return (Documents (docs :: others)) ->
  In d docs ->
  outcome (query_chroma_collection g q n) = Return (join separator docs)
  /\ Contains (join separator docs) d.
Proof.
  intros Hq Hin. split; [|apply join_contains, Hin].
  rewrite retrieval_outcome_eq. unfold retrieval_outcome. rewrite Hq.
  reflexivity.
Qed.

Lemma context_contains_every_document_witness :
  let docs := [py "Doc A"; py "Doc B"; py "Doc C"] in
  let g := sample_globals (Return (Documents [docs; [py "other"]])) in
  In (py "Doc B") docs
  /\ outcome (query_chroma_collection g (py "q") 3)
     = Return (py "Doc A\n\n---\n\nDoc B\n\n---\n\nDoc C")
  /\ Contains (py "Doc A\n\n---\n\nDoc B\n\n---\n\nDoc C") (py "Doc B").
Proof.
  intros docs g.
  split; [right; left; reflexivity|].
  exact (context_contains_every_document g (py "q") 3 docs [[py "other"]]
           (py "Doc B") eq_refl (or_intror (or_introl eq_refl))).
Defined.

(** X11: the context of a list of documents made of two non-empty parts is
    the context of the first part, the separator, and the context of the
    second part. *)
Theorem context_of_appended_documents (xs ys : list str) :
  xs <> [] -> ys <> [] ->
  join separator (xs ++ ys)
  = join separator xs ++ separator ++ join separator ys.
Proof.
  intros Hx Hy. induction xs as [|x rest IH]; [congruence|].
  destruct rest as [|x' rest'].
  - destruct ys as [|y ys']; [congruence|]. reflexivity.
  - change ((x :: x' :: rest') ++ ys) with (x :: x' :: (rest' ++ ys)).
    rewrite !join_cons.
    change (x' :: rest' ++ ys) with ((x' :: rest') ++ ys).
    rewrite IH by discriminate. rewrite <- !app_assoc. reflexivity.
Qed.

Lemma context_of_appended_documents_witness :
  [py "Doc A"] <> [] /\ [py "Doc B"; py "Doc C"] <> []
  /\ join separator ([py "Doc A"] ++ [py "Doc B"; py "Doc C"])
     = join separator [py "Doc A"] ++ separator
       ++ join separator [py "Doc B"; py "Doc C"].
Proof.
  split; [discriminate|]. split; [discriminate|].
  apply (context_of_appended_documents [py "Doc A"] [py "Doc B"; py "Doc C"]);
    discriminate.
Defined.

(** X12: the context is as long as the documents together plus seven
    characters of separator between each two neighbours. *)
Theorem context_length (docs : list str) :
  List.length (join separator docs)
  = (list_sum (map (@List.length N) docs) + 7 * (List.length docs - 1))%nat.
Proof.
  induction docs as [|d rest IH]; [reflexivity|].
  destruct rest as [|d' rest'].
  - simpl. lia.
  - rewrite join_cons, !length_app, IH.
    change (List.length separator) with 7%nat. simpl. lia.
Qed.

Lemma blank_separator_app (s : str) : blank (separator ++ s) = false.
Proof. reflexivity. Qed.

Lemma blank_join_iff (docs : list str) :
  blank (join separator docs) = true
  <-> docs = [] \/ exists d, docs = [d] /\ blank d = true.
Proof.
  destruct docs as [|d [|d' rest]].
  - split; auto.
  - rewrite join_singleton. split.
    + intros H. right. exists d. auto.
    + intros [H | (d0 & [= <-] & H)]; [discriminate | exact H].
  - rewrite join_cons. unfold blank. rewrite forallb_app.
    fold (blank (separator ++ join separator (d' :: rest))).
    rewrite blank_separator_app, andb_false_r.
    split; [discriminate|].
    intros [H | (d0 & H & _)]; discriminate.
Qed.

(** X13: the handler leaves the generation client out exactly when the
    retrieval gave no document or a single document of whitespace only; with
    two documents or more it always asks for a completion. *)
Theorem generation_skipped_iff_nothing_to_read
  (w : World) (g : Globals) (request : QueryRequest)
  (results : documents_entry) (docs : list str) :
  Collection_query (knowledge_collection g) [query request] (n_results request)
    = Return results ->
  first_documents results = Return docs ->
  generation_calls (calls (query_jee w g request)) = []
  <-> docs = [] \/ exists d, docs = [d] /\ blank d = true.
Proof.
  intros Hq Hd. rewrite <- blank_join_iff.
  rewrite query_jee_run. unfold calls, handler_log. simpl snd.
  rewrite (retrieval_outcome_documents _ _ _ _ _ Hq Hd).
  destruct (blank (join separator docs)).
  - split; reflexivity.
  - split; discriminate.
Qed.

Lemma generation_skipped_iff_nothing_to_read_witness :
  let found := Documents [[py " "; py " "]] in
  let w := sample_world (Return found) sample_reply_ok in
  let g := sample_globals (Return found) in
  generation_calls (calls (query_jee w g sample_request)) = []
  <-> [py " "; py " "] = [] \/ exists d, [py " "; py " "] = [d] /\ blank d = true.
Proof.
  intros found w g.
  exact (generation_skipped_iff_nothing_to_read w g sample_request found
           [py " "; py " "] eq_refl eq_refl).
Defined.

(** ** The handler, continued *)

(** X14: in every request the retrieval client is called first and once,
    with one query to the collection; nothing follows when the retrieval
    raised or gave a blank context; otherwise the generation client follows,
    once, with the context the retrieval returned, and posts one completion
    request. *)
Theorem query_jee_call_order (w : World) (g : Globals) (request : QueryRequest) :
  exists rest,
    calls (query_jee w g request)
    = Ev_query_chroma_collection (query request) (n_results request)
      :: Ev_collection_query [query request] (n_results request)
      :: rest
    /\ ((rest = []
         /\ ((exists e,
                outcome (query_chroma_collection g (query request)
                           (n_results request)) = Raise e)
             \/ exists context,
                  outcome (query_chroma_collection g (query request)
                             (n_results request)) = Return context
                  /\ blank context = true))
        \/ exists context,
             outcome (query_chroma_collection g (query request)
                        (n_results request)) = Return context
             /\ blank context = false
             /\ rest
                = [ Ev_call_perplexity_api (query request) context;
                    Ev_requests_post perplexity_url (perplexity_headers g)
                      (perplexity_payload (prompt_of (query request) context)) ]).
Proof.
  rewrite query_jee_run. unfold calls, handler_log. simpl snd.
  rewrite !retrieval_outcome_eq.
  destruct (retrieval_outcome g (query request) (n_results request))
    as [context|e].
  - destruct (blank context) eqn:Hb.
    + exists []. split; [reflexivity|]. left. split; [reflexivity|]. eauto.
    + eexists. split; [reflexivity|]. right. exists context. auto.
  - exists []. split; [reflexivity|]. left. split; [reflexivity|]. eauto.
Qed.

(** ** The process *)

Lemma handler_log_no_startup g request :
  filter is_startup (handler_log g request) = [].
Proof.
  unfold handler_log. rewrite filter_app. simpl.
  destruct (retrieval_outcome _ _ _) as [context|e]; [|reflexivity].
  destruct (blank context); reflexivity.
Qed.

Lemma post_api_query_no_startup w g payload :
  exists response t,
    post_api_query w g payload = (Return response, t)
    /\ filter is_startup t = [].
Proof.
  destruct (QueryRequest_validate (pydantic w) payload) as [request|e] eqn:Hv.
  - rewrite (post_api_query_run _ _ _ _ Hv). eexists _, _.
    split; [reflexivity | apply handler_log_no_startup].
  - rewrite (post_api_query_rejected _ _ _ _ Hv). eexists _, _.
    split; reflexivity.
Qed.

Lemma serve_no_startup w g payloads :
  exists responses t,
    serve w g payloads = (Return responses, t)
    /\ List.length responses = List.length payloads
    /\ filter is_startup t = [].
Proof.
  induction payloads as [|payload rest IH]; simpl.
  - exists [], []. repeat split.
  - destruct (post_api_query_no_startup w g payload) as (r & t & Hr & Ht).
    destruct IH as (rs & t' & Hrs & Hlen & Ht').
    exists (r :: rs), (t ++ t' ++ []). rewrite Hr. unfold bind, ret.
    rewrite Hrs. split; [reflexivity|]. split; [simpl; now rewrite Hlen|].
    rewrite !filter_app, Ht, Ht'. reflexivity.
Qed.

(** X17: when the import succeeds, the process answers every request, and
    however many requests it serves, the ChromaDB client is built and the
    collection opened once, at start-up: the handler works with the handle
    it was given and never opens the collection again. *)
Theorem collection_opened_once_at_startup
  (w : World) (g : Globals) (payloads : list value) :
  outcome (module_init w) = Return g ->
  exists responses,
    outcome (process w payloads) = Return responses
    /\ List.length responses = List.length payloads
    /\ filter is_startup (calls (process w payloads))
       = [ Ev_CloudClient (CHROMA_API_KEY g) (CHROMA_TENANT g) (py "Kinematics");
           Ev_get_collection (py "Kinematics") ].
Proof.
  intros Hg. destruct (module_init_returns _ _ Hg) as (client & _ & _ & _ & Hrun).
  destruct (serve_no_startup w g payloads) as (rs & t & Hs & Hlen & Ht).
  exists rs. unfold process, bind. rewrite Hrun, Hs.
  unfold outcome, calls. simpl fst. simpl snd.
  split; [reflexivity|]. split; [exact Hlen|].
  change (filter is_startup
            ([ Ev_CloudClient (CHROMA_API_KEY g) (CHROMA_TENANT g) CHROMA_DB;
               Ev_get_collection CHROMA_COLLECTION ] ++ t)
          = [ Ev_CloudClient (CHROMA_API_KEY g) (CHROMA_TENANT g) CHROMA_DB;
              Ev_get_collection CHROMA_COLLECTION ]).
  rewrite filter_app, Ht. reflexivity.
Qed.

Lemma collection_opened_once_at_startup_witness :
  let found := Return (Documents [[py "Doc A"]]) in
  let w := sample_world found sample_reply_ok in
  let payloads := [sample_payload; sample_payload_zero; sample_payload] in
  outcome (module_init w) = Return (sample_globals found)
  /\ exists responses,
       outcome (process w payloads) = Return responses
       /\ List.length responses = 3%nat
       /\ filter is_startup (calls (process w payloads))
          = [ Ev_CloudClient (py "chroma-key") (py "tenant-1") (py "Kinematics");
              Ev_get_collection (py "Kinematics") ].
Proof.
  intros found w payloads. split; [reflexivity|].
  exact (collection_opened_once_at_startup w (sample_globals found) payloads
           eq_refl).
Defined.
